(** * customer-support-eval: the response parser, the sensitive-content
      detector and the evaluation pipeline of [api.py] and [app.py]

    The two source files carry the same [extract_info] and
    [detect_sensitive_info]; [api.py] wraps them in a Flask handler
    ([evaluate]) and [app.py] in a Streamlit form.

    Python [str] values are modelled by [string]: one [ascii] per code
    point, so the strings covered are those over U+0000..U+00FF.  The
    character classes below ([isspace], [islinebreak], [isdecimal],
    [lower_char]) are the ones CPython uses for [str.strip], [str.splitlines],
    the [re] classes [\s] and [\d], and [str.lower], cut down to that range. *)

From Stdlib Require Import String Ascii List ZArith Lia Bool Arith.
Import ListNotations.
Local Open Scope string_scope.
Local Open Scope nat_scope.

(** ** Python string primitives *)

Module Py.

Definition ord (c : ascii) : nat := nat_of_ascii c.

(** [c.isspace()]: TAB..CR, FS..US, SPACE, NEL and NBSP. *)
Definition isspace (c : ascii) : bool :=
  let n := ord c in
  ((9 <=? n) && (n <=? 13)) || ((28 <=? n) && (n <=? 32))
  || (n =? 133) || (n =? 160).

(** The line boundaries of [str.splitlines]: LF, VT, FF, CR, FS, GS, RS, NEL. *)
Definition islinebreak (c : ascii) : bool :=
  let n := ord c in
  ((10 <=? n) && (n <=? 13)) || ((28 <=? n) && (n <=? 30)) || (n =? 133).

(** [c.isdecimal()], the class behind [\d]. *)
Definition isdecimal (c : ascii) : bool :=
  let n := ord c in (48 <=? n) && (n <=? 57).

(** [c.lower()]: A..Z, and the accented capitals U+00C0..U+00DE but the
    multiplication sign U+00D7. *)
Definition lower_char (c : ascii) : ascii :=
  let n := ord c in
  if ((65 <=? n) && (n <=? 90))
     || ((192 <=? n) && (n <=? 222) && negb (n =? 215))
  then ascii_of_nat (n + 32)
  else c.

(** [s.lower()].  On U+0000..U+00FF lowercasing goes character by
    character; the one rule of [str.lower] that looks at the neighbours of a
    character (the final sigma) lies outside this range. *)
Fixpoint lower (s : string) : string :=
  match s with
  | EmptyString => EmptyString
  | String c s' => String (lower_char c) (lower s')
  end.

(** [s.lstrip()] *)
Fixpoint lstrip (s : string) : string :=
  match s with
  | EmptyString => EmptyString
  | String c s' => if isspace c then lstrip s' else s
  end.

(** [s.rstrip()] *)
Fixpoint rstrip (s : string) : string :=
  match s with
  | EmptyString => EmptyString
  | String c s' =>
      match rstrip s' with
      | EmptyString => if isspace c then EmptyString else String c EmptyString
      | r => String c r
      end
  end.

(** [s.strip()] *)
Definition strip (s : string) : string := rstrip (lstrip s).

(** [s.startswith(p)] *)
Fixpoint startswith (s p : string) {struct p} : bool :=
  match p, s with
  | EmptyString, _ => true
  | String _ _, EmptyString => false
  | String a p', String b s' => Ascii.eqb a b && startswith s' p'
  end.

(** [sub in s]: [sub] starts at some position of [s]. *)
Fixpoint contains (sub s : string) : bool :=
  startswith s sub
  || match s with
     | EmptyString => false
     | String _ s' => contains sub s'
     end.

(** [s.splitlines()].  [cur] is the line being read.  A boundary closes the
    line, CR LF counting as one boundary; what is left at the end of the
    text is a line only when it is not empty, so a final boundary opens no
    empty line. *)
Fixpoint splitlines_from (cur s : string) : list string :=
  match s with
  | EmptyString =>
      match cur with
      | EmptyString => []
      | _ => [cur]
      end
  | String c s' =>
      if islinebreak c then
        cur :: match s' with
               | String c' s'' =>
                   if (ord c =? 13) && (ord c' =? 10)
                   then splitlines_from EmptyString s''
                   else splitlines_from EmptyString s'
               | EmptyString => splitlines_from EmptyString s'
               end
      else splitlines_from (cur ++ String c EmptyString) s'
  end.

Definition splitlines (s : string) : list string :=
  splitlines_from EmptyString s.

(** [int(s)] on a string of decimal digits; [None] stands for [ValueError]. *)
Definition digit_value (c : ascii) : option Z :=
  if isdecimal c then Some (Z.of_nat (ord c) - 48)%Z else None.

Fixpoint int_from (acc : Z) (s : string) : option Z :=
  match s with
  | EmptyString => Some acc
  | String c s' =>
      match digit_value c with
      | Some d => int_from (10 * acc + d)%Z s'
      | None => None
      end
  end.

Definition int (s : string) : option Z :=
  match s with
  | EmptyString => None
  | _ => int_from 0%Z s
  end.

End Py.

(** ** The fragment of [re] that the three bullet patterns use

    A pattern is a sequence of items, matched left to right by backtracking:
    a starred class first takes as many characters as it can and gives them
    back one at a time while the rest of the pattern fails.  A match is the
    list of its groups, in the order of their opening parentheses. *)

Module Re.

Inductive cls : Type :=
| Space   (* \s *)
| Digit   (* \d *)
| Dot.    (* .  (no DOTALL: anything but LF) *)

Definition in_cls (k : cls) (c : ascii) : bool :=
  match k with
  | Space => Py.isspace c
  | Digit => Py.isdecimal c
  | Dot => negb (Py.ord c =? 10)
  end.

Inductive item : Type :=
| Lit (a : ascii)        (* a literal character, under re.IGNORECASE *)
| Star (k : cls)         (* a starred class, greedy *)
| GroupStar (k : cls)    (* a group holding a starred class *)
| GroupOne (k : cls).    (* a group holding one character of a class *)

Definition pattern : Type := list item.
Definition match_object : Type := list string.

Fixpoint lits (s : string) : pattern :=
  match s with
  | EmptyString => []
  | String a s' => Lit a :: lits s'
  end.

(** Under re.IGNORECASE a literal matches the characters with the same
    lowercase form.  On U+0000..U+00FF these are all the matches; beyond it
    the literals s, i and k also match U+017F, U+0131 and U+212A. *)
Definition lit_match (a c : ascii) : bool :=
  Ascii.eqb (Py.lower_char c) (Py.lower_char a).

Fixpoint star {A : Type} (k : cls) (rest : string -> option A) (s : string)
  : option A :=
  match s with
  | String c s' =>
      if in_cls k c then
        match star k rest s' with
        | Some m => Some m
        | None => rest s
        end
      else rest s
  | EmptyString => rest s
  end.

Fixpoint group_star {A : Type} (k : cls) (rest : string -> string -> option A)
  (got s : string) : option A :=
  match s with
  | String c s' =>
      if in_cls k c then
        match group_star k rest (got ++ String c EmptyString) s' with
        | Some m => Some m
        | None => rest got s
        end
      else rest got s
  | EmptyString => rest got s
  end.

(** [re.match] without the anchoring at the end: the pattern matches a
    prefix of [s]. *)
Fixpoint match_here (p : pattern) (s : string) : option match_object :=
  match p with
  | [] => Some []
  | Lit a :: p' =>
      match s with
      | String c s' => if lit_match a c then match_here p' s' else None
      | EmptyString => None
      end
  | Star k :: p' => star k (match_here p') s
  | GroupStar k :: p' =>
      group_star k (fun got s' => option_map (cons got) (match_here p' s'))
        EmptyString s
  | GroupOne k :: p' =>
      match s with
      | String c s' =>
          if in_cls k c
          then option_map (cons (String c EmptyString)) (match_here p' s')
          else None
      | EmptyString => None
      end
  end.

(** [re.search]: the match at the leftmost position that has one. *)
Fixpoint search (p : pattern) (s : string) : option match_object :=
  match match_here p s with
  | Some m => Some m
  | None =>
      match s with
      | String _ s' => search p s'
      | EmptyString => None
      end
  end.

(** [m.group(n)] for [n >= 1]; [None] stands for [IndexError]. *)
Definition group (m : match_object) (n : nat) : option string :=
  nth_error m (n - 1).

End Re.

(** ** The response parser: [extract_info] *)

Notation "x <- e ;; k" :=
  (match e with Some x => k | None => None end)
  (at level 61, e at next level, right associativity, only parsing).

(** The values [current] takes: [None], "summary", "behavior", "conv", "know". *)
Inductive section : Type :=
| NoSection | InSummary | InBehavior | InConv | InKnow.

(** The local variables of [extract_info]. *)
Record vars : Type := mkVars {
  summary : string;
  behavior : string;
  conv : string;
  know : string;
  sb : Z;
  sc : Z;
  sk : Z;
  current : section
}.

Definition set_current (v : vars) (c : section) : vars :=
  mkVars (summary v) (behavior v) (conv v) (know v) (sb v) (sc v) (sk v) c.
Definition set_summary (v : vars) (s : string) : vars :=
  mkVars s (behavior v) (conv v) (know v) (sb v) (sc v) (sk v) (current v).
Definition set_behavior (v : vars) (t : string) (n : Z) : vars :=
  mkVars (summary v) t (conv v) (know v) n (sc v) (sk v) (current v).
Definition set_conv (v : vars) (t : string) (n : Z) : vars :=
  mkVars (summary v) (behavior v) t (know v) (sb v) n (sk v) (current v).
Definition set_know (v : vars) (t : string) (n : Z) : vars :=
  mkVars (summary v) (behavior v) (conv v) t (sb v) (sc v) n (current v).

(** The pattern of a bullet, searched with re.IGNORECASE: the label, [\s*],
    a first group holding [.*], the literal [(Score:], [\s*], a second
    group holding [\d], and the literal [/5)]. *)
Definition bullet_re (label : string) : Re.pattern :=
  (Re.lits label
   ++ [Re.Star Re.Space; Re.GroupStar Re.Dot]
   ++ Re.lits "(Score:"
   ++ [Re.Star Re.Space; Re.GroupOne Re.Digit]
   ++ Re.lits "/5)")%list.

Definition behavior_re : Re.pattern := bullet_re "- Behavior:".
Definition conv_re : Re.pattern := bullet_re "- Conversation Quality:".
Definition know_re : Re.pattern := bullet_re "- Know-How of the Issue:".

(** [match.group(1).strip(), int(match.group(2))] *)
Definition captured (m : Re.match_object) : option (string * Z) :=
  g1 <- Re.group m 1 ;;
  g2 <- Re.group m 2 ;;
  n <- Py.int g2 ;;
  Some (Py.strip g1, n).

(** The body of the [for line in lines] loop; [None] is an exception. *)
Definition loop_body (v : vars) (line : string) : option vars :=
  let line_lower := Py.lower (Py.strip line) in
  if Py.startswith line_lower "summary:" then
    Some (set_summary (set_current v InSummary) "")
  else if Py.contains "- behavior:" line_lower then
    let v := set_current v InBehavior in
    match Re.search behavior_re line with
    | Some m => tn <- captured m ;; Some (set_behavior v (fst tn) (snd tn))
    | None => Some v
    end
  else if Py.contains "- conversation quality:" line_lower then
    let v := set_current v InConv in
    match Re.search conv_re line with
    | Some m => tn <- captured m ;; Some (set_conv v (fst tn) (snd tn))
    | None => Some v
    end
  else if Py.contains "- know-how of the issue:" line_lower then
    let v := set_current v InKnow in
    match Re.search know_re line with
    | Some m => tn <- captured m ;; Some (set_know v (fst tn) (snd tn))
    | None => Some v
    end
  else
    match current v with
    | InSummary => Some (set_summary v (summary v ++ line ++ " "))
    | _ => Some v
    end.

Fixpoint loop (v : vars) (lines : list string) : option vars :=
  match lines with
  | [] => Some v
  | line :: lines' => v' <- loop_body v line ;; loop v' lines'
  end.

(** [summary = behavior = conv = know = ""; sb = sc = sk = 1; current = None] *)
Definition initial : vars := mkVars "" "" "" "" 1 1 1 NoSection.

Definition parsed : Type := (string * string * string * string * Z * Z * Z)%type.

Definition result (v : vars) : parsed :=
  (Py.strip (summary v), behavior v, conv v, know v, sb v, sc v, sk v).

Definition extract_info (groq_output : string) : option parsed :=
  v <- loop initial (Py.splitlines groq_output) ;; Some (result v).

(** ** The sensitive-content detector: [detect_sensitive_info] *)

Definition red_flags : list string :=
  ["credit card"; "password"; "cvv"; "otp"; "pin"; "ssn"; "account number"].

Definition detect_sensitive_info (convo : string) : bool :=
  let convo_lower := Py.lower convo in
  existsb (fun flag => Py.contains flag convo_lower) red_flags.

(** ** The log and the external collaborators *)

(** An instant is a count of microseconds since the epoch, UTC. *)
Definition instant : Type := Z.

(** The offset of Asia/Kolkata from UTC is +05:30 since 14 October 1945,
    17:30 UTC. *)
Definition ist_offset : Z := 19800000000.
Definition day : Z := 86400000000.

(** The offset at an instant, as the tz database gives it: local mean time
    of Kolkata (+05:53:28) until 1854, Howrah mean time (+05:53:20) until
    1870, Madras mean time (+05:21:10) until 1906, then +05:30 but for two
    periods at +06:30, from October 1941 to May 1942 and from September 1942
    to October 1945. *)
Definition kolkata_offset (t : instant) : Z :=
  if (t <? -3645237208000000)%Z then 21208000000
  else if (t <? -3155694800000000)%Z then 21200000000
  else if (t <? -2019705670000000)%Z then 19270000000
  else if (t <? -891581400000000)%Z then ist_offset
  else if (t <? -872058600000000)%Z then 23400000000
  else if (t <? -862637400000000)%Z then ist_offset
  else if (t <? -764145000000000)%Z then 23400000000
  else ist_offset.

(** [tz_convert("Asia/Kolkata")] shifts by the offset at the instant;
    [.date()] is then the day number and [.time()] the microseconds since
    midnight. *)
Definition ist_date (t : instant) : Z := ((t + kolkata_offset t) / day)%Z.
Definition ist_time (t : instant) : Z := ((t + kolkata_offset t) mod day)%Z.

Definition REQUIRED_COLUMNS : list string :=
  ["Conversation"; "Summary"; "Behavior Eval"; "Behavior Score";
   "Conversation Eval"; "Conversation Score"; "Know-how Eval";
   "Know-how Score"; "Agent Reported"; "Timestamp UTC";
   "Date (IST)"; "Time (IST)"].

(** One row of chat_summary_log.csv, a field per column of REQUIRED_COLUMNS,
    in the order of the keys of the dictionary [log_to_csv] builds.  The
    timestamp column holds the instant itself, not its [isoformat()] text. *)
Record row : Type := mkRow {
  Conversation : string;
  Summary : string;
  Behavior_Eval : string;
  Behavior_Score : Z;
  Conversation_Eval : string;
  Conversation_Score : Z;
  Knowhow_Eval : string;
  Knowhow_Score : Z;
  Agent_Reported : bool;
  Timestamp_UTC : instant;
  Date_IST : Z;
  Time_IST : Z
}.

(** What a request can observe and change: the rows under the header of the
    log, the conversations sent to the completion service so far, and the
    number of times the clock was read. *)
Record world : Type := mkWorld {
  csv : list row;
  sent : list string;
  ticks : nat
}.

(** The collaborators.  A call answers [inr] a value or [inl] the message of
    the exception it raises.  The completion service sees the earlier
    requests, so it may answer the same conversation differently each time.
    [write_error] says whether appending a row to the given rows raises. *)
Record services : Type := mkServices {
  tokenizer : string -> string + nat;
  completions : list string -> string -> string + string;
  clock : nat -> instant;
  write_error : list row -> row -> option string
}.

(** [estimate_tokens]: the length of the tokenizer's encoding. *)
Definition estimate_tokens (sv : services) (text : string) : string + nat :=
  tokenizer sv text.

Definition utcnow (sv : services) (w : world) : instant * world :=
  (clock sv (ticks w), mkWorld (csv w) (sent w) (S (ticks w))).

(** [log_to_csv] of api.py: the flag is an argument.  [to_csv] in mode "a"
    without header raises or adds one row after the rows already there. *)
Definition log_to_csv (sv : services) (convo : string) (p : parsed)
  (flagged : bool) (w : world) : (string + unit) * world :=
  let '(summary, behavior, conv, know, sb, sc, sk) := p in
  let (timestamp_utc, w) := utcnow sv w in
  let r := mkRow convo summary behavior sb conv sc know sk flagged
             timestamp_utc (ist_date timestamp_utc) (ist_time timestamp_utc) in
  match write_error sv (csv w) r with
  | Some e => (inl e, w)
  | None => (inr tt, mkWorld (csv w ++ [r])%list (sent w) (ticks w))
  end.

(** [cache_result] of app.py: the flag is computed here. *)
Definition cache_result (sv : services) (convo : string) (p : parsed)
  (w : world) : (string + unit) * world :=
  let agent_flagged := detect_sensitive_info convo in
  log_to_csv sv convo p agent_flagged w.

(** [evaluate_convo] / [evaluate_conversation]: one call to the service. *)
Definition evaluate_convo (sv : services) (convo : string) (w : world)
  : (string + string) * world :=
  (completions sv (sent w) convo,
   mkWorld (csv w) (sent w ++ [convo])%list (ticks w)).

(** ** The HTTP surface: [evaluate] of api.py *)

Module Api.

Record evaluation : Type := mkEvaluation {
  tokens_estimated : nat;
  agent_reported : bool;
  timestamp_utc : instant;
  summary : string;
  behavior_text : string;
  behavior_score : Z;
  conversation_quality_text : string;
  conversation_quality_score : Z;
  know_how_text : string;
  know_how_score : Z
}.

Inductive response : Type :=
| Ok (body : evaluation)                  (* 200 *)
| Error (status : nat) (error : string).

(** [req] is the "conversation" field of the JSON body, [None] when the
    key is missing. *)
Definition evaluate (sv : services) (req : option string) (w : world)
  : response * world :=
  let convo := match req with Some c => c | None => "" end in
  match Py.strip convo with
  | EmptyString => (Error 400 "Conversation is required", w)
  | _ =>
      match estimate_tokens sv convo with
      | inl e => (Error 500 e, w)
      | inr tokens =>
          let flagged := detect_sensitive_info convo in
          let (now, w) := utcnow sv w in
          let (output, w) := evaluate_convo sv convo w in
          match output with
          | inl e => (Error 500 e, w)
          | inr output =>
              match extract_info output with
              | None => (Error 500 "ValueError", w)   (* never taken: extract_info returns *)
              | Some p =>
                  let '(summary, behavior, conv, know, sb, sc, sk) := p in
                  let (logged, w) := log_to_csv sv convo p flagged w in
                  match logged with
                  | inl e => (Error 500 e, w)
                  | inr _ =>
                      (Ok (mkEvaluation tokens flagged now summary
                             behavior sb conv sc know sk), w)
                  end
              end
          end
      end
  end.

End Api.

(** ** The form surface: the submit handler of app.py *)

Module App.

Inductive outcome : Type :=
| Idle                          (* the guard failed: nothing is run or shown *)
| Shown (p : parsed)            (* the evaluation was displayed and cached *)
| Raised (error : string).      (* an exception left the script *)

Definition submit (sv : services) (submitted : bool) (convo_input : string)
  (w : world) : outcome * world :=
  match submitted, Py.strip convo_input with
  | true, String _ _ =>
      let (output, w) := evaluate_convo sv convo_input w in
      match output with
      | inl e => (Raised e, w)
      | inr output =>
          match extract_info output with
          | None => (Raised "ValueError", w)   (* never taken: extract_info returns *)
          | Some p =>
              let (logged, w) := cache_result sv convo_input p w in
              match logged with
              | inl e => (Raised e, w)
              | inr _ => (Shown p, w)
              end
          end
      end
  | _, _ => (Idle, w)
  end.

End App.

(** * The vocabulary of the statements *)

(** ** Strings and matches *)

(** [x] occurs in [s]. *)
Definition infix (x s : string) : Prop :=
  exists pre post, s = pre ++ x ++ post.

(** [s] is empty or made of whitespace only. *)
Fixpoint blank (s : string) : bool :=
  match s with
  | EmptyString => true
  | String c s' => Py.isspace c && blank s'
  end.

(** The groups a pattern can produce: one string per group, a single
    character of the class for [GroupOne]. *)
Fixpoint shape (p : Re.pattern) (m : Re.match_object) : Prop :=
  match p with
  | [] => m = []
  | Re.Lit _ :: p' => shape p' m
  | Re.Star _ :: p' => shape p' m
  | Re.GroupStar _ :: p' => exists g m', m = g :: m' /\ shape p' m'
  | Re.GroupOne k :: p' =>
      exists c m', m = String c "" :: m' /\ Re.in_cls k c = true /\ shape p' m'
  end.

(** ** Categories and the branches of the loop *)

Inductive category : Type := Behavior | ConversationQuality | KnowHow.

Definition category_eqb (a b : category) : bool :=
  match a, b with
  | Behavior, Behavior
  | ConversationQuality, ConversationQuality
  | KnowHow, KnowHow => true
  | _, _ => false
  end.

Definition pattern_of (c : category) : Re.pattern :=
  match c with
  | Behavior => behavior_re
  | ConversationQuality => conv_re
  | KnowHow => know_re
  end.

Definition section_of (c : category) : section :=
  match c with
  | Behavior => InBehavior
  | ConversationQuality => InConv
  | KnowHow => InKnow
  end.

Definition text (c : category) (v : vars) : string :=
  match c with
  | Behavior => behavior v
  | ConversationQuality => conv v
  | KnowHow => know v
  end.

Definition score (c : category) (v : vars) : Z :=
  match c with
  | Behavior => sb v
  | ConversationQuality => sc v
  | KnowHow => sk v
  end.

Definition set_fields (c : category) (v : vars) (t : string) (n : Z) : vars :=
  match c with
  | Behavior => set_behavior v t n
  | ConversationQuality => set_conv v t n
  | KnowHow => set_know v t n
  end.

(** The fields of the returned tuple. *)
Definition summary_of (r : parsed) : string :=
  let '(s, _, _, _, _, _, _) := r in s.

Definition text_of (c : category) (r : parsed) : string :=
  let '(_, b, cq, k, _, _, _) := r in
  match c with Behavior => b | ConversationQuality => cq | KnowHow => k end.

Definition score_of (c : category) (r : parsed) : Z :=
  let '(_, _, _, _, nb, nc, nk) := r in
  match c with Behavior => nb | ConversationQuality => nc | KnowHow => nk end.

(** The branch of the if/elif chain a line takes. *)
Inductive kind : Type :=
| SummaryLine
| Bullet (c : category)
| Other.

Definition classify (line : string) : kind :=
  let line_lower := Py.lower (Py.strip line) in
  if Py.startswith line_lower "summary:" then SummaryLine
  else if Py.contains "- behavior:" line_lower then Bullet Behavior
  else if Py.contains "- conversation quality:" line_lower
       then Bullet ConversationQuality
  else if Py.contains "- know-how of the issue:" line_lower then Bullet KnowHow
  else Other.

(** What the branch of [c] captures on a line: [None] when [re.search]
    finds no match. *)
Definition capture (c : category) (line : string) : option (string * Z) :=
  m <- Re.search (pattern_of c) line ;; captured m.

(** What one line does to the text and score of [c]: a line of the branch
    of [c] that matches replaces them, any other line leaves them. *)
Definition update (c : category) (acc : string * Z) (line : string) : string * Z :=
  match classify line with
  | Bullet c' =>
      if category_eqb c c'
      then match capture c line with Some tn => tn | None => acc end
      else acc
  | _ => acc
  end.

(** The request added one row to the log, for this conversation, whose
    "Agent Reported" column is the detector's answer on it. *)
Definition logs_flag (convo : string) (w w' : world) : Prop :=
  exists r, csv w' = (csv w ++ [r])%list
    /\ Conversation r = convo
    /\ Agent_Reported r = detect_sensitive_info convo.

(** ** Sample inputs and stand-ins *)

Definition LF : string := String "010"%char "".

(** The completion of end-to-end scenario 2, line by line. *)
Definition scenario2 : string :=
  "Summary:" ++ LF
  ++ "Customer could not log in." ++ LF
  ++ LF
  ++ "Agent Evaluation:" ++ LF
  ++ "- Behavior: Polite and professional (Score: 4/5)" ++ LF
  ++ "- Conversation Quality: Clear and responsive (Score: 5/5)" ++ LF
  ++ "- Know-How of the Issue: Correct fix offered (Score: 5/5)".

(** Stand-ins for the collaborators: the tokenizer counts characters, the
    completion service always answers [out], the clock starts at
    2023-11-14T22:13:20Z and the log can always be written. *)
Definition stub (out : string) : services :=
  mkServices (fun s => inr (String.length s)) (fun _ _ => inr out)
    (fun n => (1700000000000000 + Z.of_nat n)%Z) (fun _ _ => None).

Definition fresh : world := mkWorld [] [] 0.

Definition otp_chat : string := "Agent: Please share your OTP to continue.".

(** A completion that praises the agent all the same. *)
Definition praise : string :=
  "Summary:" ++ LF ++ "Agent verified the customer." ++ LF
  ++ "- Behavior: Exemplary (Score: 5/5)".

Definition praise_reply : Api.evaluation :=
  Api.mkEvaluation 41 true 1700000000000000%Z
    "Agent verified the customer." "Exemplary" 5 "" 1 "" 1.

Definition praise_world : world :=
  mkWorld
    [mkRow otp_chat "Agent verified the customer." "Exemplary" 5 "" 1 "" 1
       true 1700000000000001%Z 19676 13400000001]
    [otp_chat] 2.

Definition refusal_reply : Api.evaluation :=
  Api.mkEvaluation 41 true 1700000000000000%Z "" "" 1 "" 1 "" 1.

Definition refusal_world : world :=
  mkWorld
    [mkRow otp_chat "" "" 1 "" 1 "" 1 true 1700000000000001%Z 19676 13400000001]
    [otp_chat] 2.

Definition unscored : string :=
  "Summary:" ++ LF ++ "Refund issued." ++ LF
  ++ "- Behavior: Polite and professional" ++ LF
  ++ "- Conversation Quality: Clear (Score: 5/5)".

Definition unstructured : string :=
  "The model declined to answer." ++ LF ++ "Sorry.".

Definition rescored : string :=
  "Summary:" ++ LF ++ "Refund issued." ++ LF
  ++ "- Behavior: curt (Score: 2/5)" ++ LF
  ++ "- Conversation Quality: ok (Score: 3/5)" ++ LF
  ++ "- Behavior: warm (Score: 4/5)" ++ LF
  ++ "- Know-How of the Issue: fine (Score: 5/5)".

Definition unscored_duplicate : string :=
  "Summary:" ++ LF ++ "Refund issued." ++ LF
  ++ "- Behavior: curt (Score: 2/5)" ++ LF
  ++ "- Behavior: warm, no score" ++ LF
  ++ "closing remark".

(** ** Further vocabulary *)

(** ** Runs of a character class *)

(** Every character of [s] is in the class [k]. *)
Fixpoint all_in (k : Re.cls) (s : string) : bool :=
  match s with
  | EmptyString => true
  | String c s' => Re.in_cls k c && all_in k s'
  end.

(** No character of [s] is an opening parenthesis. *)
Fixpoint no_paren (s : string) : bool :=
  match s with
  | EmptyString => true
  | String c s' => negb (Ascii.eqb c "(") && no_paren s'
  end.

(** The label of a category as its pattern spells it. *)
Definition label_of (c : category) : string :=
  match c with
  | Behavior => "- Behavior:"
  | ConversationQuality => "- Conversation Quality:"
  | KnowHow => "- Know-How of the Issue:"
  end.

(** [int] of the one-character string [d]. *)
Definition digit (d : ascii) : Z := (Z.of_nat (Py.ord d) - 48)%Z.

(** The marker of a category as the if/elif chain looks for it. *)
Definition marker_of (c : category) : string :=
  match c with
  | Behavior => "- behavior:"
  | ConversationQuality => "- conversation quality:"
  | KnowHow => "- know-how of the issue:"
  end.

(** The head of [s] is not in the class: a run of the class stops here. *)
Definition stops (k : Re.cls) (s : string) : bool :=
  match s with
  | EmptyString => true
  | String c _ => negb (Re.in_cls k c)
  end.

(** The annotation, from its parenthesis on. *)
Definition score_re : Re.pattern :=
  (Re.lits "(Score:" ++ [Re.Star Re.Space; Re.GroupOne Re.Digit] ++ Re.lits "/5)")%list.


(** What [summary += line + " "] gathers over [lines]. *)
Fixpoint join (lines : list string) : string :=
  match lines with
  | [] => EmptyString
  | l :: ls => l ++ " " ++ join ls
  end.

(** The line takes the branch of [c]. *)
Definition branch (c : category) (line : string) : bool :=
  match classify line with
  | Bullet c' => category_eqb c c'
  | _ => false
  end.

(** The text and score of [c] are the same in [v] and [v']. *)
Definition unchanged (c : category) (v v' : vars) : Prop :=
  text c v' = text c v /\ score c v' = score c v.

(** The letters A..Z written as a..z, every other character kept. *)
Definition lower_ascii_char (c : ascii) : ascii :=
  let n := Py.ord c in
  if (65 <=? n) && (n <=? 90) then ascii_of_nat (n + 32) else c.

Fixpoint lower_ascii (s : string) : string :=
  match s with
  | EmptyString => EmptyString
  | String c s' => String (lower_ascii_char c) (lower_ascii s')
  end.

(** The variables and the returned tuple with A..Z written as a..z in
    their strings. *)
Definition lower_ascii_vars (v : vars) : vars :=
  mkVars (lower_ascii (summary v)) (lower_ascii (behavior v))
    (lower_ascii (conv v)) (lower_ascii (know v)) (sb v) (sc v) (sk v)
    (current v).

Definition lower_ascii_parsed (r : parsed) : parsed :=
  let '(s, b, c, k, nb, nc, nk) := r in
  (lower_ascii s, lower_ascii b, lower_ascii c, lower_ascii k, nb, nc, nk).

(** The text with every LF written as CR LF. *)
Fixpoint crlf (s : string) : string :=
  match s with
  | EmptyString => EmptyString
  | String c s' =>
      if Py.ord c =? 10 then String "013" (String c (crlf s'))
      else String c (crlf s')
  end.

(** No character of [s] is a CR. *)
Fixpoint no_cr (s : string) : bool :=
  match s with
  | EmptyString => true
  | String c s' => negb (Py.ord c =? 13) && no_cr s'
  end.

(** The parsed fields as the response and as a row of the log hold them. *)
Definition fields_of_response (r : Api.evaluation) : parsed :=
  (Api.summary r, Api.behavior_text r, Api.conversation_quality_text r,
   Api.know_how_text r, Api.behavior_score r, Api.conversation_quality_score r,
   Api.know_how_score r).

Definition fields_of_row (r : row) : parsed :=
  (Summary r, Behavior_Eval r, Conversation_Eval r, Knowhow_Eval r,
   Behavior_Score r, Conversation_Score r, Knowhow_Score r).

(** What holds of every row the two surfaces write. *)
Definition sound_row (r : row) : Prop :=
  blank (Conversation r) = false
  /\ Agent_Reported r = detect_sensitive_info (Conversation r)
  /\ (forall c, (0 <= score_of c (fields_of_row r) <= 9)%Z)
  /\ Timestamp_UTC r
     = (Date_IST r * day + Time_IST r - kolkata_offset (Timestamp_UTC r))%Z
  /\ (0 <= Time_IST r < day)%Z.

(** The row [log_to_csv] builds and the body [evaluate] answers with. *)
Definition row_of (convo : string) (p : parsed) (flagged : bool) (t : instant) : row :=
  let '(summary, behavior, conv, know, sb, sc, sk) := p in
  mkRow convo summary behavior sb conv sc know sk flagged t (ist_date t) (ist_time t).

Definition response_of (tokens : nat) (flagged : bool) (t : instant) (p : parsed)
  : Api.evaluation :=
  let '(summary, behavior, conv, know, sb, sc, sk) := p in
  Api.mkEvaluation tokens flagged t summary behavior sb conv sc know sk.

(** The world after a request that went through: one more row, one more
    conversation sent, [reads] more readings of the clock. *)
Definition after (w : world) (r : row) (convo : string) (reads : nat) : world :=
  mkWorld (csv w ++ [r])%list (sent w ++ [convo])%list (reads + ticks w).

(** The request went through: the conversation is not blank and no
    collaborator raised; [reads] is the number of readings of the clock
    before the row is stamped. *)
Definition went_through (sv : services) (convo : string) (w : world)
  (out : string) (p : parsed) (reads : nat) : Prop :=
  blank convo = false
  /\ completions sv (sent w) convo = inr out
  /\ extract_info out = Some p
  /\ write_error sv (csv w)
       (row_of convo p (detect_sensitive_info convo) (clock sv (reads + ticks w)))
     = None.

(** Stand-ins whose completion service raises. *)
Definition down (e : string) : services :=
  mkServices (fun s => inr (String.length s)) (fun _ _ => inl e)
    (fun n => (1700000000000000 + Z.of_nat n)%Z) (fun _ _ => None).

(** * Properties *)

(** ** Strings *)

Section Strings.

Lemma append_nil_r (s : string) : s ++ "" = s.
Proof. induction s as [|c s IH]; simpl; [reflexivity | now rewrite IH]. Qed.

Lemma append_assoc (a b c : string) : (a ++ b) ++ c = a ++ b ++ c.
Proof. induction a as [|x a IH]; simpl; [reflexivity | now rewrite IH]. Qed.

Lemma infix_refl (s : string) : infix s s.
Proof. exists "", "". simpl. now rewrite append_nil_r. Qed.

Lemma infix_trans (a b c : string) : infix a b -> infix b c -> infix a c.
Proof.
  intros (p1 & q1 & ->) (p2 & q2 & ->).
  exists (p2 ++ p1), (q1 ++ q2).
  now rewrite !append_assoc.
Qed.

Lemma infix_cons (x s : string) (c : ascii) : infix x s -> infix x (String c s).
Proof. intros (p & q & ->). now exists (String c p), q. Qed.

Lemma infix_app_l (x s pre : string) : infix x s -> infix x (pre ++ s).
Proof.
  intros (p & q & ->). exists (pre ++ p), q. now rewrite append_assoc.
Qed.

Lemma infix_app_r (x s post : string) : infix x s -> infix x (s ++ post).
Proof.
  intros (p & q & ->). exists p, (q ++ post). now rewrite !append_assoc.
Qed.

Lemma startswith_spec (s p : string) :
  Py.startswith s p = true <-> exists rest, s = p ++ rest.
Proof.
  revert s; induction p as [|a p IH]; intros s; simpl.
  - split; [now exists s | reflexivity].
  - destruct s as [|b s].
    + split; [discriminate | intros (r & H); discriminate].
    + rewrite andb_true_iff, IH. split.
      * intros (E & r & ->). apply Ascii.eqb_eq in E. subst. now exists r.
      * intros (r & H). injection H as -> ->. split; [apply Ascii.eqb_refl | now exists r].
Qed.

Lemma contains_spec (sub s : string) :
  Py.contains sub s = true <-> infix sub s.
Proof.
  induction s as [|c s IH].
  - simpl. rewrite orb_false_r, startswith_spec. split.
    + intros (r & ->). now exists "", r.
    + intros ([|x p] & q & H); [now exists q | discriminate].
  - cbn [Py.contains]. rewrite orb_true_iff, startswith_spec, IH. split.
    + intros [(r & ->) | H]; [now exists "", r | now apply infix_cons].
    + intros ([|x p] & q & H).
      * left. now exists q.
      * right. injection H as _ ->. now exists p, q.
Qed.

Lemma contains_false (sub s : string) :
  Py.contains sub s = false <-> ~ infix sub s.
Proof.
  rewrite <- contains_spec. destruct (Py.contains sub s); split; intros; congruence.
Qed.

Lemma lower_app (a b : string) : Py.lower (a ++ b) = Py.lower a ++ Py.lower b.
Proof. induction a as [|x a IH]; simpl; [reflexivity | now rewrite IH]. Qed.

Lemma infix_lower (x s : string) : infix x s -> infix (Py.lower x) (Py.lower s).
Proof.
  intros (p & q & ->). exists (Py.lower p), (Py.lower q). now rewrite !lower_app.
Qed.

Lemma lstrip_suffix (s : string) : exists pre, s = pre ++ Py.lstrip s.
Proof.
  induction s as [|c s (pre & IH)]; simpl.
  - now exists "".
  - destruct (Py.isspace c); [| now exists ""].
    exists (String c pre). simpl. now rewrite <- IH.
Qed.

Lemma rstrip_prefix (s : string) : exists post, s = Py.rstrip s ++ post.
Proof.
  induction s as [|c s (post & IH)]; simpl.
  - now exists "".
  - destruct (Py.rstrip s) as [|d r] eqn:E.
    + destruct (Py.isspace c); [now exists (String c s) | now exists s].
    + exists post. simpl in *. now rewrite <- IH.
Qed.

Lemma strip_infix (s : string) : infix (Py.strip s) s.
Proof.
  unfold Py.strip.
  destruct (lstrip_suffix s) as (pre & E).
  destruct (rstrip_prefix (Py.lstrip s)) as (post & F).
  exists pre, post. now rewrite <- F.
Qed.

(** Every line of [splitlines] is a piece of the text. *)
Lemma splitlines_from_infix_upto (n : nat) :
  forall s cur l, String.length s <= n ->
    In l (Py.splitlines_from cur s) -> infix l (cur ++ s).
Proof.
  induction n as [|n IH]; intros s cur l Hn; destruct s as [|c s]; simpl in *.
  - rewrite append_nil_r. destruct cur; simpl; [tauto |].
    intros [<- | []]. apply infix_refl.
  - lia.
  - rewrite append_nil_r. destruct cur; simpl; [tauto |].
    intros [<- | []]. apply infix_refl.
  - destruct (Py.islinebreak c).
    + intros [<- | H].
      * exists "", (String c s). reflexivity.
      * apply infix_app_l, infix_cons.
        destruct s as [|c' s']; [destruct H |].
        destruct ((Py.ord c =? 13) && (Py.ord c' =? 10)).
        -- apply infix_cons. apply (IH s' "" l); [simpl in Hn; lia | exact H].
        -- apply (IH (String c' s') "" l); [lia | exact H].
    + intros H. apply IH in H; [| lia].
      now rewrite append_assoc in H.
Qed.

Lemma splitlines_from_infix (s cur l : string) :
  In l (Py.splitlines_from cur s) -> infix l (cur ++ s).
Proof. now apply (splitlines_from_infix_upto (String.length s)). Qed.

Lemma splitlines_infix (s l : string) : In l (Py.splitlines s) -> infix l s.
Proof. apply splitlines_from_infix. Qed.

Lemma lstrip_blank (s : string) : blank s = true -> Py.lstrip s = "".
Proof.
  induction s as [|c s IH]; simpl; [reflexivity |].
  intros H. apply andb_true_iff in H as [-> H]. auto.
Qed.

Lemma strip_blank (s : string) : blank s = true -> Py.strip s = "".
Proof. intros H. unfold Py.strip. now rewrite lstrip_blank. Qed.

Lemma rstrip_empty (s : string) : Py.rstrip s = "" -> blank s = true.
Proof.
  induction s as [|c s IH]; simpl; [reflexivity |].
  destruct (Py.rstrip s) as [|d r]; [| discriminate].
  destruct (Py.isspace c); [intros _; now apply IH | discriminate].
Qed.

Lemma lstrip_blank_inv (s : string) : blank (Py.lstrip s) = true -> blank s = true.
Proof.
  induction s as [|c s IH]; simpl; [reflexivity |].
  destruct (Py.isspace c) eqn:E; simpl; [exact IH |].
  now rewrite E.
Qed.

(** The guard [not convo.strip()] holds exactly on the blank strings. *)
Lemma strip_empty_iff_blank (s : string) : Py.strip s = "" <-> blank s = true.
Proof.
  split; [| apply strip_blank].
  intros H. now apply lstrip_blank_inv, rstrip_empty.
Qed.

End Strings.

(** ** Matches of the bullet patterns *)

Section Matches.

Lemma star_inv {A : Type} (k : Re.cls) (rest : string -> option A) (s : string) (m : A) :
  Re.star k rest s = Some m -> exists s', rest s' = Some m.
Proof.
  induction s as [|c s IH]; simpl; [now exists "" |].
  destruct (Re.in_cls k c); [| now exists (String c s)].
  destruct (Re.star k rest s) as [m'|] eqn:E.
  - intros [= ->]. now apply IH.
  - now exists (String c s).
Qed.

Lemma group_star_inv {A : Type} (k : Re.cls) (rest : string -> string -> option A)
  (s got : string) (m : A) :
  Re.group_star k rest got s = Some m -> exists got' s', rest got' s' = Some m.
Proof.
  revert got; induction s as [|c s IH]; intros got; simpl; [now exists got, "" |].
  destruct (Re.in_cls k c); [| now exists got, (String c s)].
  destruct (Re.group_star k rest (got ++ String c "") s) as [m'|] eqn:E.
  - intros [= ->]. now apply IH in E.
  - now exists got, (String c s).
Qed.

Lemma match_here_shape (p : Re.pattern) :
  forall s m, Re.match_here p s = Some m -> shape p m.
Proof.
  induction p as [|[a|k|k|k] p IH]; intros s m; simpl.
  - now intros [= <-].
  - destruct s as [|c s]; [discriminate |].
    destruct (Re.lit_match a c); [apply IH | discriminate].
  - intros H. apply star_inv in H as (s' & H). eauto.
  - intros H. apply group_star_inv in H as (g & s' & H).
    destruct (Re.match_here p s') as [m'|] eqn:E; [| discriminate].
    injection H as <-. exists g, m'. eauto.
  - destruct s as [|c s]; [discriminate |].
    destruct (Re.in_cls k c) eqn:K; [| discriminate].
    destruct (Re.match_here p s) as [m'|] eqn:E; [| discriminate].
    intros [= <-]. exists c, m'. eauto.
Qed.

Lemma search_shape (p : Re.pattern) (s : string) (m : Re.match_object) :
  Re.search p s = Some m -> shape p m.
Proof.
  induction s as [|c s IH]; simpl;
    destruct (Re.match_here p _) as [m'|] eqn:E;
    try discriminate; try (intros [= <-]; eapply match_here_shape; eassumption).
  exact IH.
Qed.

Lemma shape_lits (s : string) (p : Re.pattern) (m : Re.match_object) :
  shape (Re.lits s ++ p)%list m <-> shape p m.
Proof. induction s as [|a s IH]; simpl; [tauto | exact IH]. Qed.

Lemma bullet_shape (label : string) (m : Re.match_object) :
  shape (bullet_re label) m ->
  exists g c, m = [g; String c ""] /\ Py.isdecimal c = true.
Proof.
  unfold bullet_re. rewrite shape_lits. simpl.
  intros (g & m1 & -> & c & m2 & -> & D & ->).
  now exists g, c.
Qed.

Lemma digit_range (c : ascii) :
  Py.isdecimal c = true -> (0 <= Z.of_nat (Py.ord c) - 48 <= 9)%Z.
Proof.
  unfold Py.isdecimal. cbv zeta. rewrite andb_true_iff, !Nat.leb_le. lia.
Qed.

(** On a match of a bullet pattern, [match.group(1).strip()] and
    [int(match.group(2))] raise nothing, and the integer is one digit. *)
Lemma captured_bullet (label line : string) (m : Re.match_object) :
  Re.search (bullet_re label) line = Some m ->
  exists t n, captured m = Some (t, n) /\ (0 <= n <= 9)%Z.
Proof.
  intros H. apply search_shape, bullet_shape in H as (g & c & -> & D).
  exists (Py.strip g), (Z.of_nat (Py.ord c) - 48)%Z.
  split; [| now apply digit_range].
  unfold captured, Re.group, Py.int, Py.int_from, Py.digit_value. simpl.
  rewrite D. reflexivity.
Qed.

End Matches.

(** ** The loop of [extract_info], branch by branch *)

Section Branches.

Lemma loop_body_summary (v : vars) (line : string) :
  classify line = SummaryLine ->
  loop_body v line = Some (set_summary (set_current v InSummary) "").
Proof.
  unfold classify, loop_body. cbv zeta.
  destruct (Py.startswith _ "summary:"); [reflexivity |].
  repeat (destruct (Py.contains _ _); [discriminate |]). discriminate.
Qed.

Lemma loop_body_bullet (v : vars) (line : string) (c : category) :
  classify line = Bullet c ->
  loop_body v line =
    Some match capture c line with
         | Some tn => set_fields c (set_current v (section_of c)) (fst tn) (snd tn)
         | None => set_current v (section_of c)
         end.
Proof.
  unfold classify, loop_body, capture. cbv zeta.
  destruct (Py.startswith _ "summary:"); [discriminate |].
  repeat (destruct (Py.contains _ _);
          [ intros [= <-]; cbn [pattern_of section_of set_fields];
            match goal with
            | |- context [Re.search ?p line] =>
                destruct (Re.search p line) as [m|] eqn:E; [| reflexivity];
                apply captured_bullet in E as (t & n & -> & _); reflexivity
            end |]).
  discriminate.
Qed.

Lemma loop_body_other (v : vars) (line : string) :
  classify line = Other ->
  loop_body v line =
    Some match current v with
         | InSummary => set_summary v (summary v ++ line ++ " ")
         | _ => v
         end.
Proof.
  unfold classify, loop_body. cbv zeta.
  destruct (Py.startswith _ "summary:"); [discriminate |].
  repeat (destruct (Py.contains _ _); [discriminate |]).
  intros _. now destruct (current v).
Qed.

(** The body of the loop raises nothing. *)
Lemma loop_body_returns (v : vars) (line : string) :
  exists v', loop_body v line = Some v'.
Proof.
  destruct (classify line) as [|c|] eqn:K.
  - rewrite (loop_body_summary _ _ K). eauto.
  - rewrite (loop_body_bullet _ _ _ K). eauto.
  - rewrite (loop_body_other _ _ K). eauto.
Qed.

End Branches.

(** ** The text and score of one category *)

Section Fields.

Variable c : category.

Lemma capture_range (line t : string) (n : Z) :
  capture c line = Some (t, n) -> (0 <= n <= 9)%Z.
Proof.
  unfold capture. destruct (Re.search (pattern_of c) line) as [m|] eqn:E; [| discriminate].
  assert (exists t n, captured m = Some (t, n) /\ (0 <= n <= 9)%Z) as (t' & n' & -> & R)
    by (destruct c; eapply captured_bullet; exact E).
  now intros [= _ <-].
Qed.

Lemma loop_body_fields (v : vars) (line : string) :
  exists v', loop_body v line = Some v'
    /\ (text c v', score c v') = update c (text c v, score c v) line.
Proof.
  unfold update. destruct (classify line) as [|c'|] eqn:K.
  - rewrite (loop_body_summary _ _ K). eexists; split; [reflexivity |].
    now destruct c.
  - rewrite (loop_body_bullet _ _ _ K). eexists; split; [reflexivity |].
    destruct c, c'; simpl; try reflexivity;
      match goal with
      | |- context [capture ?k line] => now destruct (capture k line) as [[t n]|]
      end.
  - rewrite (loop_body_other _ _ K). eexists; split; [reflexivity |].
    now destruct c, (current v).
Qed.

Lemma loop_fields (lines : list string) :
  forall v, exists v', loop v lines = Some v'
    /\ (text c v', score c v') = fold_left (update c) lines (text c v, score c v).
Proof.
  induction lines as [|line lines IH]; intros v; simpl.
  - eauto.
  - destruct (loop_body_fields v line) as (v1 & -> & E).
    destruct (IH v1) as (v' & L & F). exists v'. split; [exact L |].
    now rewrite F, E.
Qed.

(** [extract_info] returns a tuple on every text, and its fields for [c]
    are the fold of [update] over the lines, from the defaults. *)
Lemma extract_info_fields (out : string) :
  exists r, extract_info out = Some r
    /\ (text_of c r, score_of c r)
       = fold_left (update c) (Py.splitlines out) ("", 1%Z).
Proof.
  unfold extract_info.
  destruct (loop_fields (Py.splitlines out) initial) as (v & -> & F).
  exists (result v). split; [reflexivity |].
  replace ("", 1%Z) with (text c initial, score c initial) by now destruct c.
  rewrite <- F. now destruct c.
Qed.

(** Lines that do not match for [c] leave the fold where it was. *)
Lemma fold_update_unmatched (lines : list string) (acc : string * Z) :
  (forall l, In l lines -> classify l = Bullet c -> capture c l = None) ->
  fold_left (update c) lines acc = acc.
Proof.
  revert acc; induction lines as [|l lines IH]; intros acc H; simpl; [reflexivity |].
  rewrite IH by (intros; apply H; simpl; auto).
  unfold update. destruct (classify l) as [|c'|] eqn:K; try reflexivity.
  destruct c, c'; simpl; try reflexivity; rewrite (H l); simpl; auto.
Qed.

(** The last line of the branch of [c] that matches decides. *)
Lemma fold_update_last (before after : list string)
  (line : string) (tn acc : string * Z) :
  classify line = Bullet c ->
  capture c line = Some tn ->
  (forall l, In l after -> classify l = Bullet c -> capture c l = None) ->
  fold_left (update c) (before ++ line :: after)%list acc = tn.
Proof.
  intros K C H. rewrite fold_left_app. simpl.
  rewrite fold_update_unmatched by exact H.
  unfold update. rewrite K, C. now destruct c.
Qed.

Lemma fold_update_range (lines : list string) (acc : string * Z) :
  (0 <= snd acc <= 9)%Z ->
  (0 <= snd (fold_left (update c) lines acc) <= 9)%Z.
Proof.
  revert acc; induction lines as [|l lines IH]; intros acc R; simpl; [exact R |].
  apply IH. unfold update.
  destruct (classify l) as [|c'|]; try exact R.
  destruct (category_eqb c c'); [| exact R].
  destruct (capture c l) as [[t n]|] eqn:C; [| exact R].
  simpl. eapply capture_range; eassumption.
Qed.


End Fields.

Lemma loop_returns (lines : list string) (v : vars) :
  exists v', loop v lines = Some v'.
Proof. destruct (loop_fields Behavior lines v) as (v' & L & _). eauto. Qed.

Lemma extract_info_returns (out : string) : exists r, extract_info out = Some r.
Proof. destruct (extract_info_fields Behavior out) as (r & E & _). eauto. Qed.


(** ** The parser on the format the prompt asks for *)

Example scenario2_lines :
  Py.splitlines scenario2 =
    ["Summary:"; "Customer could not log in."; ""; "Agent Evaluation:";
     "- Behavior: Polite and professional (Score: 4/5)";
     "- Conversation Quality: Clear and responsive (Score: 5/5)";
     "- Know-How of the Issue: Correct fix offered (Score: 5/5)"].
Proof. reflexivity. Qed.

(** The blank line and the heading fall in the last branch of the chain
    while [current] is still "summary". *)
Example scenario2_heading_is_other :
  classify "" = Other /\ classify "Agent Evaluation:" = Other.
Proof. split; reflexivity. Qed.

(** C1.  On the completion of scenario 2 [extract_info] returns the three
    texts and the scores 4, 5, 5 of the bullets, but the summary it returns
    is "Customer could not log in.  Agent Evaluation:": the blank line adds
    a space and the heading line "Agent Evaluation:" is appended, since no
    branch closes the summary before the first bullet. *)
Theorem scenario2_summary_runs_into_heading :
  extract_info scenario2 =
    Some ("Customer could not log in.  Agent Evaluation:",
          "Polite and professional", "Clear and responsive",
          "Correct fix offered", 4%Z, 5%Z, 5%Z)
  /\ option_map summary_of (extract_info scenario2)
     <> Some "Customer could not log in.".
Proof. split; [vm_compute; reflexivity | vm_compute; discriminate]. Qed.

(** Without the heading line the summary is the paragraph alone: the space
    the blank line adds is stripped at the end. *)
Example scenario2_without_heading :
  extract_info
    ("Summary:" ++ LF ++ "Customer could not log in." ++ LF ++ LF
     ++ "- Behavior: Polite and professional (Score: 4/5)")
  = Some ("Customer could not log in.", "Polite and professional", "", "",
          4%Z, 1%Z, 1%Z).
Proof. vm_compute. reflexivity. Qed.

(** X1.  [extract_info] returns a tuple on every completion text: neither
    [match.group] nor [int] can raise on a match of a bullet pattern. *)
Theorem extract_info_always_returns (out : string) :
  exists summary behavior conv know sb sc sk,
    extract_info out = Some (summary, behavior, conv, know, sb, sc, sk).
Proof.
  destruct (extract_info_returns out) as ([[[[[[sm b] c] k] nb] nc] nk] & E).
  now exists sm, b, c, k, nb, nc, nk.
Qed.

(** ** Scores *)

(** C2, as stated, fails: the pattern takes any digit before "/5", so a
    bullet scored 9/5 gives the score 9 and one scored 0/5 the score 0,
    both outside 1..5. *)
Lemma score_outside_one_to_five :
  extract_info "- Behavior: rude (Score: 9/5)" = Some ("", "rude", "", "", 9%Z, 1%Z, 1%Z)
  /\ extract_info "- Behavior: rude (Score: 0/5)" = Some ("", "rude", "", "", 0%Z, 1%Z, 1%Z)
  /\ ~ (1 <= 9 <= 5)%Z /\ ~ (1 <= 0 <= 5)%Z.
Proof. repeat split; try (vm_compute; reflexivity); lia. Qed.

(** C2, amended.  On every completion text [extract_info] returns, each of
    the three scores is an integer from 0 to 9, and the score of a category
    is 1 when no line of its branch matches its pattern. *)
Theorem scores_are_one_digit (out : string) :
  exists r, extract_info out = Some r
    /\ forall c,
         (0 <= score_of c r <= 9)%Z
         /\ ((forall l, In l (Py.splitlines out) -> classify l = Bullet c ->
                        Re.search (pattern_of c) l = None) ->
             score_of c r = 1%Z).
Proof.
  destruct (extract_info_returns out) as (r & E). exists r. split; [exact E |].
  intros c. destruct (extract_info_fields c out) as (r' & E' & F).
  rewrite E in E'. injection E' as <-.
  split.
  - change (score_of c r) with (snd (text_of c r, score_of c r)). rewrite F.
    apply fold_update_range. simpl. lia.
  - intros H. rewrite fold_update_unmatched in F.
    + now injection F.
    + intros l I K. unfold capture. now rewrite (H l I K).
Qed.

(** ** The detector *)

Example detect_has_no_word_boundary :
  detect_sensitive_info "In my opinion the agent was helpful." = true.
Proof. reflexivity. Qed.

(** C3.  [detect_sensitive_info] answers true exactly when the lowercased
    conversation contains one of the seven red-flag strings at some
    position, and false when it contains none of them. *)
Theorem detect_iff_red_flag_occurs (convo : string) :
  let flags := ["credit card"; "password"; "cvv"; "otp"; "pin"; "ssn";
                "account number"] in
  (detect_sensitive_info convo = true <->
   exists flag, In flag flags
     /\ exists pre post, Py.lower convo = pre ++ flag ++ post)
  /\ ((forall flag, In flag flags ->
         ~ exists pre post, Py.lower convo = pre ++ flag ++ post) ->
      detect_sensitive_info convo = false).
Proof.
  cbv zeta. fold red_flags.
  assert (detect_sensitive_info convo = true <->
          exists flag, In flag red_flags /\ infix flag (Py.lower convo)) as I.
  { unfold detect_sensitive_info. cbv zeta. rewrite existsb_exists.
    split; intros (f & F & C); exists f; (split; [exact F |]);
      now apply contains_spec. }
  split; [exact I |].
  intros H. destruct (detect_sensitive_info convo); [| reflexivity].
  destruct (proj1 I eq_refl) as (f & F & C). now destruct (H f F).
Qed.

(** ** The pipeline *)

Section Pipeline.

Variable sv : services.

Lemma log_to_csv_inv (convo : string) (p : parsed)
  (flagged : bool) (w w' : world) :
  log_to_csv sv convo p flagged w = (inr tt, w') ->
  exists r, csv w' = (csv w ++ [r])%list
    /\ Conversation r = convo /\ Agent_Reported r = flagged.
Proof.
  destruct p as [[[[[[sm b] c] k] nb] nc] nk]. unfold log_to_csv, utcnow. simpl.
  destruct (write_error sv _ _); [discriminate |].
  intros [= <-]. simpl. eauto.
Qed.

Lemma evaluate_ok_inv (convo : string) (w w' : world)
  (r : Api.evaluation) :
  Api.evaluate sv (Some convo) w = (Api.Ok r, w') ->
  Api.agent_reported r = detect_sensitive_info convo /\ logs_flag convo w w'.
Proof.
  unfold Api.evaluate, estimate_tokens.
  destruct (Py.strip convo) as [|x rest]; [discriminate |].
  destruct (tokenizer sv convo) as [e|n]; [discriminate |].
  unfold utcnow, evaluate_convo.
  destruct (completions sv _ convo) as [e|out]; [discriminate |].
  destruct (extract_info out) as [p|]; [| discriminate].
  destruct p as [[[[[[sm b] c] k] nb] nc] nk].
  destruct (log_to_csv _ _ _ _ _) as [[e|[]] w1] eqn:L; [discriminate |].
  intros [= <- <-]. split; [reflexivity |].
  apply log_to_csv_inv in L. exact L.
Qed.

Lemma submit_shown_inv (submitted : bool) (convo : string)
  (w w' : world) (p : parsed) :
  App.submit sv submitted convo w = (App.Shown p, w') -> logs_flag convo w w'.
Proof.
  unfold App.submit.
  destruct submitted; [| discriminate].
  destruct (Py.strip convo) as [|x rest]; [discriminate |].
  unfold evaluate_convo.
  destruct (completions sv _ convo) as [e|out]; [discriminate |].
  destruct (extract_info out) as [q|]; [| discriminate].
  unfold cache_result.
  destruct (log_to_csv _ _ _ _ _) as [[e|[]] w1] eqn:L; [discriminate |].
  intros [= <- <-]. apply log_to_csv_inv in L. exact L.
Qed.

(** A request goes through when the conversation is not blank and the
    collaborators raise nothing, whatever the completion text is. *)
Lemma evaluate_succeeds (convo out : string) (w : world) (n : nat) :
  Py.strip convo <> "" ->
  tokenizer sv convo = inr n ->
  completions sv (sent w) convo = inr out ->
  (forall rows r, write_error sv rows r = None) ->
  exists r w', Api.evaluate sv (Some convo) w = (Api.Ok r, w').
Proof.
  intros S T C W. unfold Api.evaluate, estimate_tokens.
  destruct (Py.strip convo) as [|x rest]; [congruence |].
  rewrite T. unfold utcnow, evaluate_convo. simpl. rewrite C.
  destruct (extract_info_returns out) as (p & ->).
  destruct p as [[[[[[sm b] c] k] nb] nc] nk].
  unfold log_to_csv, utcnow. simpl. rewrite W. eauto.
Qed.

Lemma otp_request_is_flagged (convo : string) :
  infix "Please share your OTP" convo -> detect_sensitive_info convo = true.
Proof.
  intros H. apply infix_lower in H.
  unfold detect_sensitive_info. cbv zeta. apply existsb_exists.
  exists "otp". split; [unfold red_flags; simpl; tauto |].
  apply contains_spec. eapply infix_trans; [| exact H].
  now exists "please share your ", "".
Qed.

(** Status 400 is the answer to blank conversations only. *)
Lemma evaluate_400_blank (convo e : string) (w w' : world) :
  Api.evaluate sv (Some convo) w = (Api.Error 400 e, w') -> blank convo = true.
Proof.
  unfold Api.evaluate, estimate_tokens.
  destruct (Py.strip convo) as [|x rest] eqn:S;
    [intros _; now apply strip_empty_iff_blank |].
  destruct (tokenizer sv convo) as [e1|n]; [discriminate |].
  unfold utcnow, evaluate_convo.
  destruct (completions sv _ convo) as [e1|out]; [discriminate |].
  destruct (extract_info out) as [p|]; [| discriminate].
  destruct p as [[[[[[sm b] c] k] nb] nc] nk].
  destruct (log_to_csv _ _ _ _ _) as [[e1|[]] w1]; discriminate.
Qed.

End Pipeline.

(** C4.  A conversation that is empty or all whitespace, or a body without
    the field, is answered with status 400 and the world is left as it was:
    no conversation was sent to the completion service, the log has no new
    row and the clock was not read, whatever the collaborators would have
    done.  On the form the guard of the handler fails and nothing runs. *)
Theorem blank_conversation_is_rejected (sv : services) (convo : string) (w : world) :
  blank convo = true ->
  Api.evaluate sv (Some convo) w = (Api.Error 400 "Conversation is required", w)
  /\ Api.evaluate sv None w = (Api.Error 400 "Conversation is required", w)
  /\ forall submitted, App.submit sv submitted convo w = (App.Idle, w).
Proof.
  intros B. apply strip_blank in B.
  unfold Api.evaluate, App.submit. rewrite B.
  repeat split. now intros [].
Qed.

(** C5.  Two requests for the same conversation, served by any two sets of
    collaborators (so with any two completion texts) and both answered with
    status 200, carry the same [agent_reported], which is the detector's
    answer on the conversation; the row each of them adds to the log holds
    that answer too, as does the row the form adds; and the answer is true
    when the conversation contains "Please share your OTP". *)
Theorem agent_reported_depends_on_conversation_only
  (sv1 sv2 : services) (convo : string) (w1 w2 w1' w2' : world)
  (r1 r2 : Api.evaluation) :
  Api.evaluate sv1 (Some convo) w1 = (Api.Ok r1, w1') ->
  Api.evaluate sv2 (Some convo) w2 = (Api.Ok r2, w2') ->
  Api.agent_reported r1 = Api.agent_reported r2
  /\ Api.agent_reported r1 = detect_sensitive_info convo
  /\ logs_flag convo w1 w1' /\ logs_flag convo w2 w2'
  /\ (forall sv w w' p, App.submit sv true convo w = (App.Shown p, w') ->
        logs_flag convo w w')
  /\ ((exists pre post, convo = pre ++ "Please share your OTP" ++ post) ->
      Api.agent_reported r1 = true /\ Api.agent_reported r2 = true).
Proof.
  intros H1 H2.
  apply evaluate_ok_inv in H1 as (A1 & L1).
  apply evaluate_ok_inv in H2 as (A2 & L2).
  rewrite A1, A2. repeat split; try assumption.
  - intros sv w w' p H. eapply submit_shown_inv; eassumption.
  - now apply otp_request_is_flagged.
  - now apply otp_request_is_flagged.
Qed.

(** ** Bullets: defaults, overwriting, and the summary cursor *)

Section Bullets.

Lemma loop_app (a b : list string) (v : vars) :
  loop v (a ++ b)%list = (v' <- loop v a ;; loop v' b).
Proof.
  revert v; induction a as [|l a IH]; intros v; simpl; [reflexivity |].
  destruct (loop_body v l); [apply IH | reflexivity].
Qed.

Lemma capture_none (c : category) (line : string) :
  Re.search (pattern_of c) line = None -> capture c line = None.
Proof. unfold capture. now intros ->. Qed.


(** Outside the summary, lines of the last branch change nothing. *)
Lemma loop_others (lines : list string) (v : vars) :
  (forall l, In l lines -> classify l = Other) ->
  current v <> InSummary ->
  loop v lines = Some v.
Proof.
  induction lines as [|l lines IH]; intros H C; simpl; [reflexivity |].
  rewrite (loop_body_other v l) by (apply H; simpl; auto).
  destruct (current v) eqn:E; try congruence;
    apply IH; try congruence; intros; apply H; simpl; auto.
Qed.

(** Once [current] has left "summary", the summary stays as it is until
    the next "summary:" line. *)
Lemma loop_summary_closed (lines : list string) :
  forall v,
    (forall l, In l lines -> classify l <> SummaryLine) ->
    current v <> InSummary ->
    exists v', loop v lines = Some v'
      /\ summary v' = summary v /\ current v' <> InSummary.
Proof.
  induction lines as [|l lines IH]; intros v H C; simpl; [eauto |].
  assert (exists v1, loop_body v l = Some v1
            /\ summary v1 = summary v /\ current v1 <> InSummary)
    as (v1 & -> & S1 & C1).
  { destruct (classify l) as [|c|] eqn:K.
    - exfalso. apply (H l); [simpl; auto | exact K].
    - rewrite (loop_body_bullet _ _ _ K). eexists; split; [reflexivity |].
      destruct (capture c l) as [[t n]|]; destruct c; simpl; split;
        (reflexivity || discriminate).
    - rewrite (loop_body_other _ _ K). eexists; split; [reflexivity |].
      destruct (current v) eqn:E; try congruence; split; congruence. }
  destruct (IH v1) as (v' & L & S' & C'); [intros; apply H; simpl; auto | exact C1 |].
  exists v'. repeat split; congruence.
Qed.

Lemma line_marker_in_text (out line m : string) :
  In line (Py.splitlines out) ->
  Py.contains m (Py.lower (Py.strip line)) = true ->
  Py.contains m (Py.lower out) = true.
Proof.
  intros I C. apply contains_spec in C. apply contains_spec.
  eapply infix_trans; [exact C |]. apply infix_lower.
  eapply infix_trans; [apply strip_infix | now apply splitlines_infix].
Qed.

End Bullets.

(** C6, as stated, fails: a bullet line without the annotation does not
    bring the defaults back when an earlier line of the same category
    matched.  The line "- Behavior: warm, no score" takes the branch of
    behavior and fails its pattern, yet the text returned is "curt" and
    the score 2, captured from the line before it. *)
Lemma unscored_bullet_after_a_scored_one :
  In "- Behavior: warm, no score" (Py.splitlines unscored_duplicate)
  /\ classify "- Behavior: warm, no score" = Bullet Behavior
  /\ Re.search behavior_re "- Behavior: warm, no score" = None
  /\ extract_info unscored_duplicate
     = Some ("Refund issued.", "curt", "", "", 2%Z, 1%Z, 1%Z)
  /\ "curt" <> "" /\ 2%Z <> 1%Z.
Proof.
  repeat split; try (vm_compute; reflexivity); try discriminate.
  vm_compute. tauto.
Qed.

(** C6, amended.  When none of the lines that take the branch of a category
    matches its pattern (so also when its one bullet line has no
    "(Score: X/5)"), [extract_info] returns the empty string and the score 1
    for that category: nothing of the line after the label is kept. *)
Theorem unmatched_bullet_keeps_defaults (out : string) (c : category) :
  (forall l, In l (Py.splitlines out) -> classify l = Bullet c ->
             Re.search (pattern_of c) l = None) ->
  exists r, extract_info out = Some r
    /\ text_of c r = "" /\ score_of c r = 1%Z.
Proof.
  intros H. destruct (extract_info_fields c out) as (r & E & F).
  exists r. split; [exact E |].
  rewrite fold_update_unmatched in F
    by (intros l I K; apply capture_none; auto).
  now injection F.
Qed.

(** C7.  When no line starts with "summary:" once stripped and lowercased,
    and the lowercased text contains none of the three markers,
    [extract_info] returns the empty summary, three empty texts and three
    scores 1; it raises nothing. *)
Theorem no_marker_gives_all_defaults (out : string) :
  (forall l, In l (Py.splitlines out) ->
             Py.startswith (Py.lower (Py.strip l)) "summary:" = false) ->
  Py.contains "- behavior:" (Py.lower out) = false ->
  Py.contains "- conversation quality:" (Py.lower out) = false ->
  Py.contains "- know-how of the issue:" (Py.lower out) = false ->
  extract_info out = Some ("", "", "", "", 1%Z, 1%Z, 1%Z).
Proof.
  intros S B C K. unfold extract_info.
  rewrite loop_others; [reflexivity | | discriminate].
  intros l I. unfold classify. cbv zeta. rewrite (S l I).
  repeat match goal with
  | |- context [Py.contains ?m (Py.lower (Py.strip l))] =>
      destruct (Py.contains m (Py.lower (Py.strip l))) eqn:E;
      [ apply (line_marker_in_text out l m I) in E; congruence | clear E ]
  end.
  reflexivity.
Qed.

(** C8.  When two lines take the branch of the same category and both match
    its pattern, and no later line takes that branch, [extract_info]
    returns the text and the score captured from the second one. *)
Theorem duplicate_bullet_last_wins (out : string) (c : category)
  (before between after : list string) (first last : string)
  (t1 t2 : string) (n1 n2 : Z) :
  Py.splitlines out = (before ++ first :: between ++ last :: after)%list ->
  classify first = Bullet c -> capture c first = Some (t1, n1) ->
  classify last = Bullet c -> capture c last = Some (t2, n2) ->
  (forall l, In l after -> classify l <> Bullet c) ->
  exists r, extract_info out = Some r
    /\ text_of c r = t2 /\ score_of c r = n2.
Proof.
  intros L K1 C1 K2 C2 H. destruct (extract_info_fields c out) as (r & E & F).
  exists r. split; [exact E |].
  rewrite L in F.
  replace (before ++ first :: between ++ last :: after)%list
    with ((before ++ first :: between) ++ last :: after)%list in F
    by (rewrite <- app_assoc; reflexivity).
  rewrite (fold_update_last c _ after last (t2, n2)) in F; auto.
  - now injection F.
  - intros l I Kl. now destruct (H l I).
Qed.


(** ** Runs on concrete inputs *)

Ltac by_cases_on_lines I K :=
  vm_compute in I;
  repeat (destruct I as [<- | I];
          [ first [ vm_compute; reflexivity
                  | vm_compute in K; discriminate
                  | vm_compute; discriminate ] | ]);
  destruct I.

Lemma blank_conversation_witness :
  blank (" " ++ LF ++ "  ") = true
  /\ Api.evaluate (stub praise) (Some (" " ++ LF ++ "  ")) fresh
     = (Api.Error 400 "Conversation is required", fresh)
  /\ Api.evaluate (stub praise) None fresh
     = (Api.Error 400 "Conversation is required", fresh)
  /\ forall submitted,
       App.submit (stub praise) submitted (" " ++ LF ++ "  ") fresh
       = (App.Idle, fresh).
Proof.
  split; [reflexivity |].
  apply (blank_conversation_is_rejected (stub praise) (" " ++ LF ++ "  ") fresh).
  reflexivity.
Defined.

Lemma agent_reported_witness :
  Api.evaluate (stub praise) (Some otp_chat) fresh = (Api.Ok praise_reply, praise_world)
  /\ Api.evaluate (stub "I cannot help with that.") (Some otp_chat) fresh
     = (Api.Ok refusal_reply, refusal_world)
  /\ Api.behavior_score praise_reply = 5%Z
  /\ Api.agent_reported praise_reply = true
  /\ Api.agent_reported refusal_reply = true.
Proof.
  assert (H1 : Api.evaluate (stub praise) (Some otp_chat) fresh
               = (Api.Ok praise_reply, praise_world))
    by (vm_compute; reflexivity).
  assert (H2 : Api.evaluate (stub "I cannot help with that.") (Some otp_chat) fresh
               = (Api.Ok refusal_reply, refusal_world))
    by (vm_compute; reflexivity).
  destruct (agent_reported_depends_on_conversation_only _ _ _ _ _ _ _ _ _ H1 H2)
    as (_ & _ & _ & _ & _ & O).
  destruct O as (O1 & O2);
    [exists "Agent: ", " to continue."; reflexivity |].
  repeat split; assumption || reflexivity.
Defined.

Lemma unmatched_bullet_witness :
  classify "- Behavior: Polite and professional" = Bullet Behavior
  /\ exists r, extract_info unscored = Some r
       /\ text_of Behavior r = "" /\ score_of Behavior r = 1%Z.
Proof.
  split; [reflexivity |].
  apply (unmatched_bullet_keeps_defaults unscored Behavior).
  intros l I K. by_cases_on_lines I K.
Defined.

Lemma no_marker_witness :
  extract_info unstructured = Some ("", "", "", "", 1%Z, 1%Z, 1%Z).
Proof.
  apply (no_marker_gives_all_defaults unstructured); try reflexivity.
  intros l I. by_cases_on_lines I I.
Defined.

Lemma duplicate_bullet_witness :
  exists r, extract_info rescored = Some r
    /\ text_of Behavior r = "warm" /\ score_of Behavior r = 4%Z.
Proof.
  apply (duplicate_bullet_last_wins rescored Behavior
           ["Summary:"; "Refund issued."]
           ["- Conversation Quality: ok (Score: 3/5)"]
           ["- Know-How of the Issue: fine (Score: 5/5)"]
           "- Behavior: curt (Score: 2/5)" "- Behavior: warm (Score: 4/5)"
           "curt" "warm" 2 4); try reflexivity.
  intros l I K. by_cases_on_lines I K.
Defined.

Example unscored_duplicate_parsed :
  extract_info unscored_duplicate
  = Some ("Refund issued.", "curt", "", "", 2%Z, 1%Z, 1%Z).
Proof. vm_compute. reflexivity. Qed.


(** * Further properties *)

(** ** Characters *)

Section Characters.

Ltac by_all_characters c :=
  destruct c as [[] [] [] [] [] [] [] []]; vm_compute;
  try reflexivity; try discriminate; try (intros; discriminate); try (intros; reflexivity).

Lemma lower_char_idem (c : ascii) : Py.lower_char (Py.lower_char c) = Py.lower_char c.
Proof. by_all_characters c. Qed.

Lemma lower_of_lower_ascii (c : ascii) :
  Py.lower_char (lower_ascii_char c) = Py.lower_char c.
Proof. by_all_characters c. Qed.

Lemma isspace_lower_ascii (c : ascii) :
  Py.isspace (lower_ascii_char c) = Py.isspace c.
Proof. by_all_characters c. Qed.

Lemma islinebreak_lower_ascii (c : ascii) :
  Py.islinebreak (lower_ascii_char c) = Py.islinebreak c.
Proof. by_all_characters c. Qed.

Lemma in_cls_lower_ascii (k : Re.cls) (c : ascii) :
  Re.in_cls k (lower_ascii_char c) = Re.in_cls k c.
Proof. destruct k; by_all_characters c. Qed.

Lemma ord_lower_ascii_cr (c : ascii) :
  (Py.ord (lower_ascii_char c) =? 13) = (Py.ord c =? 13).
Proof. by_all_characters c. Qed.

Lemma ord_lower_ascii_lf (c : ascii) :
  (Py.ord (lower_ascii_char c) =? 10) = (Py.ord c =? 10).
Proof. by_all_characters c. Qed.

Lemma digit_value_lower_ascii (c : ascii) :
  Py.digit_value (lower_ascii_char c) = Py.digit_value c.
Proof. by_all_characters c. Qed.

Lemma lower_paren (c : ascii) : Py.lower_char c = "("%char -> c = "("%char.
Proof. by_all_characters c. Qed.

Lemma lower_slash (c : ascii) : Py.lower_char c = "/"%char -> c = "/"%char.
Proof. by_all_characters c. Qed.

Lemma lower_five (c : ascii) : Py.lower_char c = "5"%char -> c = "5"%char.
Proof. by_all_characters c. Qed.

Lemma lower_close (c : ascii) : Py.lower_char c = ")"%char -> c = ")"%char.
Proof. by_all_characters c. Qed.


Lemma space_not_dash (c : ascii) :
  Py.isspace c = true -> Re.lit_match "-" c = false.
Proof. by_all_characters c. Qed.

Lemma space_not_paren (c : ascii) : Py.isspace c = true -> Ascii.eqb c "(" = false.
Proof. by_all_characters c. Qed.

Lemma decimal_not_paren (c : ascii) : Py.isdecimal c = true -> Ascii.eqb c "(" = false.
Proof. by_all_characters c. Qed.

Lemma decimal_not_space (c : ascii) : Py.isdecimal c = true -> Py.isspace c = false.
Proof. by_all_characters c. Qed.

Lemma paren_not_space : Py.isspace "(" = false.
Proof. reflexivity. Qed.

End Characters.

(** ** What a match consumed, and what the backtracking finds *)

Section Backtracking.

Lemma all_in_app (k : Re.cls) (a b : string) :
  all_in k (a ++ b) = all_in k a && all_in k b.
Proof. induction a as [|c a IH]; simpl; [reflexivity | now rewrite IH, andb_assoc]. Qed.

Lemma blank_all_in (s : string) : blank s = all_in Re.Space s.
Proof. induction s as [|c s IH]; simpl; [reflexivity | now rewrite IH]. Qed.

Lemma no_paren_app (a b : string) : no_paren (a ++ b) = no_paren a && no_paren b.
Proof. induction a as [|c a IH]; simpl; [reflexivity | now rewrite IH, andb_assoc]. Qed.

Lemma blank_no_paren (s : string) : blank s = true -> no_paren s = true.
Proof.
  induction s as [|c s IH]; simpl; [reflexivity |].
  intros H. apply andb_true_iff in H as [S B].
  now rewrite (space_not_paren c S), IH.
Qed.

(** A piece that lowercases to a text without capitals and parentheses has
    no parenthesis itself. *)
Lemma lower_no_paren (s l : string) :
  Py.lower s = l -> no_paren l = true -> no_paren s = true.
Proof.
  revert l; induction s as [|c s IH]; intros l; simpl; [reflexivity |].
  intros <-. simpl. intros H. apply andb_true_iff in H as [P Q].
  rewrite (IH _ eq_refl Q), andb_true_r.
  destruct (Ascii.eqb_spec c "("); [subst; discriminate | reflexivity].
Qed.

(** *** Literals *)

Lemma match_here_lits (l l' : string) (p : Re.pattern) (s : string) :
  Py.lower l' = Py.lower l ->
  Re.match_here (Re.lits l ++ p)%list (l' ++ s) = Re.match_here p s.
Proof.
  revert l'; induction l as [|a l IH]; intros [|c l']; simpl; try discriminate;
    [reflexivity |].
  intros [= E1 E2]. unfold Re.lit_match. rewrite E1, Ascii.eqb_refl. now apply IH.
Qed.

Lemma match_here_lits_inv (l : string) (p : Re.pattern) (s : string)
  (m : Re.match_object) :
  Re.match_here (Re.lits l ++ p)%list s = Some m ->
  exists l' s', s = l' ++ s' /\ Py.lower l' = Py.lower l
    /\ Re.match_here p s' = Some m.
Proof.
  revert s; induction l as [|a l IH]; intros s; simpl.
  - intros H. now exists "", s.
  - destruct s as [|c s]; [discriminate |].
    unfold Re.lit_match. destruct (Ascii.eqb_spec (Py.lower_char c) (Py.lower_char a)) as [E|];
      [| discriminate].
    intros H. apply IH in H as (l' & s' & -> & L & M).
    exists (String c l'), s'. simpl. repeat split; congruence.
Qed.

(** *** Starred classes *)

Lemma star_consumed {A : Type} (k : Re.cls) (rest : string -> option A)
  (s : string) (m : A) :
  Re.star k rest s = Some m ->
  exists w s', s = w ++ s' /\ all_in k w = true /\ rest s' = Some m.
Proof.
  induction s as [|c s IH]; simpl; [now exists "", "" |].
  destruct (Re.in_cls k c) eqn:K; [| now exists "", (String c s)].
  destruct (Re.star k rest s) as [m'|] eqn:E.
  - intros [= ->]. destruct (IH eq_refl) as (w & s' & -> & W & R).
    exists (String c w), s'. simpl. now rewrite K, W.
  - now exists "", (String c s).
Qed.

Lemma group_star_consumed {A : Type} (k : Re.cls)
  (rest : string -> string -> option A) (s got : string) (m : A) :
  Re.group_star k rest got s = Some m ->
  exists g s', s = g ++ s' /\ all_in k g = true /\ rest (got ++ g) s' = Some m.
Proof.
  assert (forall s', rest got s' = Some m ->
            exists g s'', s' = g ++ s'' /\ all_in k g = true
              /\ rest (got ++ g) s'' = Some m) as Here
    by (intros s' H; exists "", s'; now rewrite append_nil_r).
  revert got Here; induction s as [|c s IH]; intros got Here; simpl; [apply Here |].
  destruct (Re.in_cls k c) eqn:K; [| apply Here].
  destruct (Re.group_star k rest (got ++ String c "") s) as [m'|] eqn:E; [| apply Here].
  intros [= ->]. apply IH in E as (g & s' & -> & G & R).
  - exists (String c g), s'. simpl. rewrite K, G.
    now rewrite append_assoc in R.
  - intros s' H. exists "", s'. now rewrite append_nil_r.
Qed.

(** A starred class takes a whole run of its class; when the rest of the
    pattern matches after the run, that is the match. *)
Lemma star_whole_run {A : Type} (k : Re.cls) (rest : string -> option A)
  (w s : string) (m : A) :
  all_in k w = true -> stops k s = true -> rest s = Some m ->
  Re.star k rest (w ++ s) = Some m.
Proof.
  intros W S R. induction w as [|c w IH]; simpl in *.
  - destruct s as [|c s]; simpl in *; [exact R |].
    apply negb_true_iff in S. now rewrite S.
  - apply andb_true_iff in W as [-> W]. now rewrite IH.
Qed.

(** A starred group of dots gives back what it took until the rest of the
    pattern matches: when the rest can only start on an opening parenthesis
    and [s1] has none after its first character, the group is [g]. *)
Lemma group_star_none {A : Type} (k : Re.cls)
  (rest : string -> string -> option A) (s got : string) :
  (forall got' v, rest got' v = None \/ exists v', v = String "(" v') ->
  no_paren s = true ->
  Re.group_star k rest got s = None.
Proof.
  intros F. revert got; induction s as [|c s IH]; intros got N; simpl in *.
  - destruct (F got "") as [E | (v' & E)]; [exact E | discriminate].
  - apply andb_true_iff in N as [P N]. apply negb_true_iff in P.
    assert (rest got (String c s) = None) as R.
    { destruct (F got (String c s)) as [E | (v' & E)]; [exact E |].
      injection E as -> _. discriminate. }
    destruct (Re.in_cls k c); [| exact R].
    now rewrite IH.
Qed.

Lemma group_star_last {A : Type} (k : Re.cls)
  (rest : string -> string -> option A) (g got : string) (c : ascii)
  (s1 : string) (m : A) :
  (forall got' v, rest got' v = None \/ exists v', v = String "(" v') ->
  all_in k g = true -> no_paren s1 = true ->
  rest (got ++ g) (String c s1) = Some m ->
  Re.group_star k rest got (g ++ String c s1) = Some m.
Proof.
  intros F G N. revert got; induction g as [|x g IH]; intros got R; simpl in *.
  - rewrite append_nil_r in R.
    destruct (Re.in_cls k c); [| exact R].
    now rewrite (group_star_none k rest s1 _ F N).
  - apply andb_true_iff in G as [-> G].
    rewrite IH; [reflexivity | exact G |].
    now rewrite append_assoc.
Qed.

(** *** Searching *)

Lemma search_consumed (p : Re.pattern) (s : string) (m : Re.match_object) :
  Re.search p s = Some m ->
  exists pre s', s = pre ++ s' /\ Re.match_here p s' = Some m.
Proof.
  induction s as [|c s IH]; simpl.
  - destruct (Re.match_here p "") eqn:E; [| discriminate].
    intros [= <-]. now exists "", "".
  - destruct (Re.match_here p (String c s)) eqn:E.
    + intros [= <-]. now exists "", (String c s).
    + intros H. apply IH in H as (pre & s' & -> & M).
      now exists (String c pre), s'.
Qed.

(** Leading whitespace is skipped by the search for a pattern that starts
    with a dash. *)
Lemma search_skips_blank (p : Re.pattern) (pre s : string) :
  blank pre = true ->
  Re.search (Re.Lit "-" :: p) (pre ++ s) = Re.search (Re.Lit "-" :: p) s.
Proof.
  induction pre as [|c pre IH]; simpl; [reflexivity |].
  intros H. apply andb_true_iff in H as [S B].
  now rewrite (space_not_dash c S), IH.
Qed.

End Backtracking.

(** ** What a bullet pattern captures *)

Section Captures.

Lemma pattern_of_label (c : category) : pattern_of c = bullet_re (label_of c).
Proof. now destruct c. Qed.

Lemma label_lower (c : category) : Py.lower (label_of c) = marker_of c.
Proof. now destruct c. Qed.

Lemma search_here (p : Re.pattern) (s : string) (m : Re.match_object) :
  Re.match_here p s = Some m -> Re.search p s = Some m.
Proof. intros H. destruct s; simpl; now rewrite H. Qed.

Lemma lstrip_idem (s : string) : Py.lstrip (Py.lstrip s) = Py.lstrip s.
Proof.
  induction s as [|c s IH]; simpl; [reflexivity |].
  destruct (Py.isspace c) eqn:E; [exact IH | simpl; now rewrite E].
Qed.

Lemma lstrip_run (s : string) :
  exists w, s = w ++ Py.lstrip s /\ blank w = true.
Proof.
  induction s as [|c s (w & E & B)]; simpl; [now exists "" |].
  destruct (Py.isspace c) eqn:S; [| now exists ""].
  exists (String c w). simpl. now rewrite <- E, S, B.
Qed.

Lemma lstrip_stops (s rest : string) :
  stops Re.Space rest = true -> stops Re.Space (Py.lstrip s ++ rest) = true.
Proof.
  intros R. induction s as [|c s IH]; simpl; [exact R |].
  destruct (Py.isspace c) eqn:S; [exact IH | simpl; now rewrite S].
Qed.

Lemma bullet_re_split (label : string) :
  bullet_re label
  = (Re.lits label ++ Re.Star Re.Space :: Re.GroupStar Re.Dot :: score_re)%list.
Proof. reflexivity. Qed.

Lemma score_re_needs_paren (got v : string) :
  option_map (cons got) (Re.match_here score_re v) = None
  \/ exists v', v = String "(" v'.
Proof.
  destruct v as [|x v]; [now left |].
  unfold score_re. simpl. unfold Re.lit_match.
  destruct (Ascii.eqb_spec (Py.lower_char x) (Py.lower_char "(")) as [E|]; [| now left].
  right. apply lower_paren in E. subst. now exists v.
Qed.

Lemma score_re_matches (sc ws post : string) (d : ascii) :
  Py.lower sc = "(score:" -> blank ws = true -> Py.isdecimal d = true ->
  Re.match_here score_re (sc ++ ws ++ String d "/5)" ++ post)
  = Some [String d ""].
Proof.
  intros S W D. unfold score_re.
  rewrite match_here_lits by exact S.
  cbn [app Re.match_here].
  rewrite (star_whole_run Re.Space _ ws (String d ("/5)" ++ post)) [String d ""]).
  - reflexivity.
  - now rewrite <- blank_all_in.
  - simpl. now rewrite (decimal_not_space d D).
  - simpl. now rewrite D.
Qed.

Lemma score_head (sc : string) :
  Py.lower sc = "(score:" ->
  exists sc', sc = String "(" sc' /\ no_paren sc' = true.
Proof.
  destruct sc as [|x sc']; [discriminate |]. simpl.
  intros [= E L]. apply lower_paren in E. subst.
  exists sc'. split; [reflexivity |]. now apply (lower_no_paren sc' "score:").
Qed.

(** What a capture consumed of the line. *)
Lemma capture_consumed (c : category) (line t : string) (n : Z) :
  capture c line = Some (t, n) ->
  exists pre label w g sc ws d post,
    line = pre ++ label ++ w ++ g ++ sc ++ ws ++ String d "/5)" ++ post
    /\ Py.lower label = marker_of c
    /\ blank w = true /\ all_in Re.Dot g = true
    /\ Py.lower sc = "(score:"
    /\ blank ws = true /\ Py.isdecimal d = true
    /\ t = Py.strip g /\ n = digit d.
Proof.
  unfold capture.
  destruct (Re.search (pattern_of c) line) as [m|] eqn:E; [| discriminate].
  apply search_consumed in E as (pre & s0 & -> & M).
  rewrite pattern_of_label, bullet_re_split in M.
  apply match_here_lits_inv in M as (label & s1 & -> & L & M).
  cbn [Re.match_here] in M.
  apply star_consumed in M as (w & s2 & -> & W & M).
  cbn [Re.match_here] in M.
  apply group_star_consumed in M as (g & s3 & -> & G & M).
  destruct (Re.match_here score_re s3) as [m'|] eqn:Sc; [| discriminate].
  injection M as <-.
  unfold score_re in Sc.
  apply match_here_lits_inv in Sc as (sc & s4 & -> & S & Sc).
  cbn [app Re.match_here] in Sc.
  apply star_consumed in Sc as (ws & s5 & -> & Ws & Sc).
  destruct s5 as [|d s5]; [discriminate |].
  cbn [Re.match_here] in Sc.
  destruct (Re.in_cls Re.Digit d) eqn:D; [| discriminate].
  destruct (Re.match_here (Re.lits "/5)") s5) as [m''|] eqn:F; [| discriminate].
  injection Sc as <-.
  unfold Re.lit_match in F.
  destruct s5 as [|x1 s5]; [discriminate |].
  cbn [Re.lits Re.match_here] in F. unfold Re.lit_match in F.
  destruct (Ascii.eqb_spec (Py.lower_char x1) (Py.lower_char "/")) as [E1|]; [| discriminate].
  destruct s5 as [|x2 s5]; [discriminate |].
  destruct (Ascii.eqb_spec (Py.lower_char x2) (Py.lower_char "5")) as [E2|]; [| discriminate].
  destruct s5 as [|x3 post]; [discriminate |].
  destruct (Ascii.eqb_spec (Py.lower_char x3) (Py.lower_char ")")) as [E3|]; [| discriminate].
  injection F as <-.
  apply lower_slash in E1. apply lower_five in E2. apply lower_close in E3. subst.
  unfold captured, Re.group, Py.int, Py.int_from, Py.digit_value. simpl in *.
  rewrite D. intros [= <- <-].
  exists pre, label, w, g, sc, ws, d, post.
  rewrite <- !blank_all_in in *. rewrite label_lower in L.
  repeat split; auto.
Qed.

Lemma capture_needs_slash_five (c : category) (line : string) :
  Py.contains "/5)" line = false -> capture c line = None.
Proof.
  intros N. destruct (capture c line) as [[t n]|] eqn:E; [| reflexivity].
  apply capture_consumed in E
    as (pre & label & w & g & sc & ws & d & post & -> & _).
  apply contains_false in N. destruct N.
  exists (pre ++ label ++ w ++ g ++ sc ++ ws ++ String d ""), post.
  rewrite !append_assoc. reflexivity.
Qed.



Lemma search_pattern_skips_blank (c : category) (pre s : string) :
  blank pre = true ->
  Re.search (pattern_of c) (pre ++ s) = Re.search (pattern_of c) s.
Proof. destruct c; apply search_skips_blank. Qed.

End Captures.

(** X2.  A bullet in the requested form is parsed exactly.  On a line made
    of leading whitespace, the label in any capitalisation, a text, the
    annotation "(Score:" in any capitalisation, whitespace, a digit and
    "/5)", with no opening parenthesis after the annotation, the pattern of
    the category captures the stripped text and the value of the digit. *)
Theorem canonical_bullet_is_captured (c : category)
  (pre label text sc ws post : string) (d : ascii) :
  blank pre = true ->
  Py.lower label = marker_of c ->
  all_in Re.Dot text = true ->
  Py.lower sc = "(score:" ->
  blank ws = true ->
  Py.isdecimal d = true ->
  no_paren post = true ->
  capture c (pre ++ label ++ text ++ sc ++ ws ++ String d "/5)" ++ post)
  = Some (Py.strip text, digit d).
Proof.
  intros Pre L T S W D Post.
  destruct (score_head sc S) as (sc' & -> & Nsc).
  destruct (lstrip_run text) as (w & Et & Bw).
  pose proof (score_re_matches _ ws post d S W D) as Sc.
  cbn [append] in *.
  set (s1 := sc' ++ ws ++ String d (String "/" (String "5" (String ")" post)))) in *.
  assert (Re.match_here (Re.GroupStar Re.Dot :: score_re)
            (Py.lstrip text ++ String "(" s1)
          = Some [Py.lstrip text; String d ""]) as G.
  { cbn [Re.match_here].
    apply group_star_last.
    - intros got v. apply score_re_needs_paren.
    - rewrite Et, all_in_app in T. now apply andb_true_iff in T as [_ T].
    - unfold s1. rewrite !no_paren_app, Nsc, (blank_no_paren ws W). simpl.
      now rewrite (decimal_not_paren d D), Post.
    - cbn [append]. now rewrite Sc. }
  assert (Re.match_here (pattern_of c) (label ++ text ++ String "(" s1)
          = Some [Py.lstrip text; String d ""]) as M.
  { rewrite pattern_of_label, bullet_re_split.
    rewrite match_here_lits by (now rewrite label_lower).
    cbn [Re.match_here]. rewrite Et at 1. rewrite append_assoc.
    apply star_whole_run; [now rewrite <- blank_all_in | | exact G].
    now apply lstrip_stops. }
  unfold capture.
  replace (Re.search (pattern_of c) (pre ++ label ++ text ++ String "(" s1))
    with (Some [Py.lstrip text; String d ""]).
  - unfold captured, Re.group, Py.int, Py.int_from, Py.digit_value. simpl.
    rewrite D. unfold Py.strip, digit. now rewrite lstrip_idem.
  - symmetry. rewrite search_pattern_skips_blank by exact Pre.
    now apply search_here.
Qed.

Lemma canonical_bullet_witness :
  capture ConversationQuality
    ("  " ++ "- conversation QUALITY:" ++ "  Clear (Score: 1/5) at first "
     ++ "(score:" ++ " " ++ String "3" "/5)" ++ " approx.")
  = Some ("Clear (Score: 1/5) at first", 3%Z).
Proof.
  apply (canonical_bullet_is_captured ConversationQuality
           "  " "- conversation QUALITY:" "  Clear (Score: 1/5) at first "
           "(score:" " " " approx." "3"); reflexivity.
Defined.



(** ** The summary *)

Section Summary.

(** While [current] is "summary", lines of the last branch are gathered. *)
Lemma loop_gathers (body : list string) :
  forall v, current v = InSummary ->
    (forall l, In l body -> classify l = Other) ->
    loop v body = Some (set_summary v (summary v ++ join body)).
Proof.
  induction body as [|l body IH]; intros v C H; simpl.
  - rewrite append_nil_r. now destruct v.
  - rewrite (loop_body_other v l) by (apply H; simpl; auto). rewrite C.
    rewrite IH; [| exact C | intros; apply H; simpl; auto].
    simpl. now rewrite !append_assoc.
Qed.

Lemma loop_body_closes (v : vars) (b : string) (c : category) :
  classify b = Bullet c ->
  exists v', loop_body v b = Some v'
    /\ summary v' = summary v /\ current v' <> InSummary.
Proof.
  intros K. rewrite (loop_body_bullet _ _ _ K). eexists; split; [reflexivity |].
  destruct (capture c b) as [[t n]|]; destruct c; simpl; split;
    (reflexivity || discriminate).
Qed.

End Summary.

(** ** One category among the lines *)

Section Independence.

Variable c : category.

Lemma update_off_branch (acc : string * Z) (l : string) :
  branch c l = false -> update c acc l = acc.
Proof.
  unfold branch, update. destruct (classify l) as [|c'|]; try reflexivity.
  now intros ->.
Qed.

Lemma fold_update_filter (lines : list string) :
  forall acc,
    fold_left (update c) lines acc
    = fold_left (update c) (filter (branch c) lines) acc.
Proof.
  induction lines as [|l lines IH]; intros acc; simpl; [reflexivity |].
  destruct (branch c l) eqn:B; simpl.
  - apply IH.
  - rewrite (update_off_branch acc l B). apply IH.
Qed.

End Independence.

(** ** Whitespace around the returned strings *)

Section Stripped.

Lemma rstrip_idem (s : string) : Py.rstrip (Py.rstrip s) = Py.rstrip s.
Proof.
  induction s as [|c s IH]; simpl; [reflexivity |].
  destruct (Py.rstrip s) as [|d r] eqn:E.
  - destruct (Py.isspace c) eqn:S; simpl; [reflexivity | now rewrite S].
  - cbn [Py.rstrip]. cbn [Py.rstrip] in IH. now rewrite IH.
Qed.

Lemma lstrip_fixed (s : string) : stops Re.Space s = true -> Py.lstrip s = s.
Proof.
  destruct s as [|c s]; simpl; [reflexivity |].
  intros H. apply negb_true_iff in H. now rewrite H.
Qed.

Lemma rstrip_stops (s : string) :
  stops Re.Space s = true -> stops Re.Space (Py.rstrip s) = true.
Proof.
  destruct s as [|c s]; simpl; [reflexivity |].
  intros H. destruct (Py.rstrip s); [| exact H].
  apply negb_true_iff in H. rewrite H. simpl. now rewrite H.
Qed.

Lemma lstrip_is_stopped (s : string) : stops Re.Space (Py.lstrip s) = true.
Proof.
  induction s as [|c s IH]; simpl; [reflexivity |].
  destruct (Py.isspace c) eqn:S; [exact IH | simpl; now rewrite S].
Qed.

Lemma strip_idem (s : string) : Py.strip (Py.strip s) = Py.strip s.
Proof.
  unfold Py.strip.
  rewrite (lstrip_fixed (Py.rstrip (Py.lstrip s)))
    by apply rstrip_stops, lstrip_is_stopped.
  apply rstrip_idem.
Qed.

Lemma captured_stripped (m : Re.match_object) (t : string) (n : Z) :
  captured m = Some (t, n) -> Py.strip t = t.
Proof.
  unfold captured.
  destruct (Re.group m 1) as [g1|]; [| discriminate].
  destruct (Re.group m 2) as [g2|]; [| discriminate].
  destruct (Py.int g2); [| discriminate].
  intros [= <- _]. apply strip_idem.
Qed.

Lemma fold_update_stripped (c : category) (lines : list string) :
  forall acc, Py.strip (fst acc) = fst acc ->
    Py.strip (fst (fold_left (update c) lines acc))
    = fst (fold_left (update c) lines acc).
Proof.
  induction lines as [|l lines IH]; intros acc H; simpl; [exact H |].
  apply IH. unfold update.
  destruct (classify l) as [|c'|]; try exact H.
  destruct (category_eqb c c'); [| exact H].
  unfold capture. destruct (Re.search (pattern_of c) l) as [m|]; [| exact H].
  destruct (captured m) as [[t n]|] eqn:E; [| exact H].
  simpl. eapply captured_stripped; eassumption.
Qed.

End Stripped.

(** X4.  The summary returned is made of the lines between a "summary:"
    line and the next bullet line, each followed by one space, stripped at
    the end, whatever the text before that "summary:" line and whatever
    stands on that line after the marker, provided no "summary:" line
    comes later. *)
Theorem summary_is_the_lines_joined (out s : string)
  (before body rest : list string) :
  Py.splitlines out = (before ++ s :: body ++ rest)%list ->
  classify s = SummaryLine ->
  (forall l, In l body -> classify l = Other) ->
  (forall b, hd_error rest = Some b -> exists c, classify b = Bullet c) ->
  (forall l, In l rest -> classify l <> SummaryLine) ->
  exists r, extract_info out = Some r
    /\ summary_of r = Py.strip (join body).
Proof.
  intros L S B Hd R. unfold extract_info. rewrite L, loop_app.
  destruct (loop_returns before initial) as (v0 & ->). simpl.
  rewrite (loop_body_summary _ _ S), loop_app.
  rewrite loop_gathers; [| reflexivity | exact B]. simpl.
  destruct rest as [|b rest]; simpl.
  - eexists; split; [reflexivity | reflexivity].
  - destruct (Hd b eq_refl) as (c & K).
    destruct (loop_body_closes
                (set_summary (set_summary (set_current v0 InSummary) "") (join body))
                b c K) as (v1 & -> & S1 & C1).
    destruct (loop_summary_closed rest v1) as (v2 & -> & S2 & _);
      [intros; apply R; simpl; auto | exact C1 |].
    eexists; split; [reflexivity |]. simpl. now rewrite S2, S1.
Qed.

Lemma summary_joined_witness :
  exists r,
    extract_info
      ("Preamble" ++ LF ++ "Summary: dropped" ++ LF ++ "First line." ++ LF
       ++ "  second line " ++ LF ++ "- Behavior: ok" ++ LF ++ "trailing") = Some r
    /\ summary_of r = Py.strip (join ["First line."; "  second line "]).
Proof.
  apply (summary_is_the_lines_joined _ "Summary: dropped" ["Preamble"]
           ["First line."; "  second line "] ["- Behavior: ok"; "trailing"]).
  - reflexivity.
  - reflexivity.
  - intros l I. by_cases_on_lines I I.
  - intros b [= <-]. now exists Behavior.
  - intros l I K. by_cases_on_lines I K.
Defined.

(** X5.  A reply in the requested format is parsed field by field: when the
    lines are a "summary:" line, lines of the last branch, and one bullet
    line per category in the order behavior, conversation quality,
    know-how, each matching its pattern, [extract_info] returns the joined
    and stripped lines as summary and the three captures. *)
Theorem requested_format_is_parsed (out s lb lc lk : string) (body : list string)
  (tb tc tk : string) (nb nc nk : Z) :
  Py.splitlines out = (s :: body ++ [lb; lc; lk])%list ->
  classify s = SummaryLine ->
  (forall l, In l body -> classify l = Other) ->
  classify lb = Bullet Behavior -> capture Behavior lb = Some (tb, nb) ->
  classify lc = Bullet ConversationQuality ->
  capture ConversationQuality lc = Some (tc, nc) ->
  classify lk = Bullet KnowHow -> capture KnowHow lk = Some (tk, nk) ->
  extract_info out = Some (Py.strip (join body), tb, tc, tk, nb, nc, nk).
Proof.
  intros L S B Kb Cb Kc Cc Kk Ck. unfold extract_info. rewrite L. simpl.
  rewrite (loop_body_summary _ _ S), loop_app.
  rewrite loop_gathers; [| reflexivity | exact B]. simpl.
  rewrite (loop_body_bullet _ _ _ Kb), Cb. simpl.
  rewrite (loop_body_bullet _ _ _ Kc), Cc. simpl.
  rewrite (loop_body_bullet _ _ _ Kk), Ck. reflexivity.
Qed.

Lemma requested_format_witness :
  extract_info scenario2
  = Some (Py.strip (join ["Customer could not log in."; ""; "Agent Evaluation:"]),
          "Polite and professional", "Clear and responsive",
          "Correct fix offered", 4%Z, 5%Z, 5%Z).
Proof.
  apply (requested_format_is_parsed scenario2 "Summary:"
           "- Behavior: Polite and professional (Score: 4/5)"
           "- Conversation Quality: Clear and responsive (Score: 5/5)"
           "- Know-How of the Issue: Correct fix offered (Score: 5/5)"
           ["Customer could not log in."; ""; "Agent Evaluation:"]);
    try reflexivity.
  intros l I. by_cases_on_lines I I.
Defined.

(** X6.  The text and score returned for a category depend only on the
    lines that take its branch, in their order: two completion texts with
    the same such lines get the same text and score for it, wherever those
    lines stand among the others. *)
Theorem category_depends_on_its_lines_only (c : category) (out1 out2 : string) :
  filter (branch c) (Py.splitlines out1) = filter (branch c) (Py.splitlines out2) ->
  exists r1 r2, extract_info out1 = Some r1 /\ extract_info out2 = Some r2
    /\ text_of c r1 = text_of c r2 /\ score_of c r1 = score_of c r2.
Proof.
  intros F.
  destruct (extract_info_fields c out1) as (r1 & E1 & F1).
  destruct (extract_info_fields c out2) as (r2 & E2 & F2).
  exists r1, r2. repeat split; try assumption.
  - rewrite fold_update_filter, F, <- fold_update_filter, <- F2 in F1. now injection F1.
  - rewrite fold_update_filter, F, <- fold_update_filter, <- F2 in F1. now injection F1.
Qed.

Lemma category_depends_witness :
  exists r1 r2,
    extract_info ("- Know-How of the Issue: solid (Score: 4/5)" ++ LF
                  ++ "Summary:" ++ LF ++ "Refund issued.") = Some r1
    /\ extract_info ("Summary:" ++ LF ++ "Card blocked." ++ LF
                     ++ "- Behavior: curt (Score: 2/5)" ++ LF
                     ++ "- Know-How of the Issue: solid (Score: 4/5)") = Some r2
    /\ text_of KnowHow r1 = text_of KnowHow r2
    /\ score_of KnowHow r1 = score_of KnowHow r2.
Proof.
  apply (category_depends_on_its_lines_only KnowHow). vm_compute. reflexivity.
Defined.

(** X7.  One line changes at most one category, by the order of the
    if/elif chain.  Only the category whose branch the line takes can
    change, so of any two categories one is left as it was.  A line whose
    stripped lowercase form starts with "summary:" changes none, even when
    it carries a well-formed bullet; a line containing "- behavior:"
    changes neither conversation quality nor know-how; a line containing
    "- conversation quality:" does not change know-how. *)
Theorem line_changes_one_category (v : vars) (line : string) :
  let line_lower := Py.lower (Py.strip line) in
  exists v', loop_body v line = Some v'
    /\ (forall c, classify line <> Bullet c -> unchanged c v v')
    /\ (forall c1 c2, c1 <> c2 -> unchanged c1 v v' \/ unchanged c2 v v')
    /\ (Py.startswith line_lower "summary:" = true ->
        forall c, unchanged c v v')
    /\ (Py.contains "- behavior:" line_lower = true ->
        unchanged ConversationQuality v v' /\ unchanged KnowHow v v')
    /\ (Py.contains "- conversation quality:" line_lower = true ->
        unchanged KnowHow v v').
Proof.
  cbv zeta.
  assert (forall v', (forall c, classify line <> Bullet c -> unchanged c v v') ->
            forall c1 c2, c1 <> c2 -> unchanged c1 v v' \/ unchanged c2 v v') as One.
  { intros v' H c1 c2 N. destruct (classify line) as [|c|].
    - left. now apply H.
    - destruct (category_eqb c c1) eqn:Q.
      + right. apply H. intros [= ->]. apply N.
        destruct c1, c2; simpl in Q; congruence.
      + left. apply H. intros [= ->]. destruct c1; discriminate.
    - left. now apply H. }
  assert (forall v', loop_body v line = Some v' ->
            forall c, classify line <> Bullet c -> unchanged c v v') as Off.
  { intros v' E c N. unfold unchanged.
    destruct (classify line) as [|c'|] eqn:K.
    - rewrite (loop_body_summary _ _ K) in E. injection E as <-. now destruct c.
    - rewrite (loop_body_bullet _ _ _ K) in E. injection E as <-.
      destruct (capture c' line) as [[t n]|];
        destruct c, c'; simpl; auto; now destruct N.
    - rewrite (loop_body_other _ _ K) in E. injection E as <-.
      now destruct c, (current v). }
  destruct (loop_body_returns v line) as (v' & E). exists v'.
  split; [exact E |]. split; [now apply Off |]. split; [now apply One, Off |].
  unfold classify in Off. cbv zeta in Off.
  destruct (Py.startswith _ "summary:").
  { repeat split; intros; apply (Off v' E); discriminate. }
  split; [discriminate |].
  destruct (Py.contains "- behavior:" _).
  { repeat split; intros; apply (Off v' E); discriminate. }
  split; [discriminate |].
  destruct (Py.contains "- conversation quality:" _); [| discriminate].
  intros _. apply (Off v' E). discriminate.
Qed.

(** X8.  The summary and the three texts returned carry no whitespace at
    either end: stripping them again changes nothing. *)
Theorem returned_strings_are_stripped (out : string) :
  exists r, extract_info out = Some r
    /\ Py.strip (summary_of r) = summary_of r
    /\ forall c, Py.strip (text_of c r) = text_of c r.
Proof.
  unfold extract_info.
  destruct (loop_returns (Py.splitlines out) initial) as (v & E). rewrite E.
  exists (result v). split; [reflexivity |]. split; [apply strip_idem |].
  intros c. destruct (loop_fields c (Py.splitlines out) initial) as (v' & E' & F).
  rewrite E in E'. injection E' as <-.
  replace (text_of c (result v)) with (fst (text c v, score c v)) by now destruct c.
  rewrite F. apply fold_update_stripped. now destruct c.
Qed.

(** ** Lowercasing the completion text *)

Section Lowercase.

Lemma lower_idem (s : string) : Py.lower (Py.lower s) = Py.lower s.
Proof.
  induction s as [|c s IH]; simpl; [reflexivity |].
  now rewrite lower_char_idem, IH.
Qed.

Lemma lower_of_lower_ascii_string (s : string) :
  Py.lower (lower_ascii s) = Py.lower s.
Proof.
  induction s as [|c s IH]; simpl; [reflexivity |].
  now rewrite lower_of_lower_ascii, IH.
Qed.

Lemma lower_ascii_app (s t : string) :
  lower_ascii (s ++ t) = lower_ascii s ++ lower_ascii t.
Proof. induction s as [|c s IH]; simpl; [reflexivity | now rewrite IH]. Qed.

Lemma lstrip_lower_ascii (s : string) :
  Py.lstrip (lower_ascii s) = lower_ascii (Py.lstrip s).
Proof.
  induction s as [|c s IH]; simpl; [reflexivity |].
  rewrite isspace_lower_ascii. now destruct (Py.isspace c).
Qed.

Lemma rstrip_lower_ascii (s : string) :
  Py.rstrip (lower_ascii s) = lower_ascii (Py.rstrip s).
Proof.
  induction s as [|c s IH]; simpl; [reflexivity |].
  rewrite IH, isspace_lower_ascii.
  destruct (Py.rstrip s); simpl; [now destruct (Py.isspace c) | reflexivity].
Qed.

Lemma strip_lower_ascii (s : string) :
  Py.strip (lower_ascii s) = lower_ascii (Py.strip s).
Proof. unfold Py.strip. now rewrite lstrip_lower_ascii, rstrip_lower_ascii. Qed.

Lemma splitlines_from_lower_ascii_upto (n : nat) :
  forall s cur, String.length s <= n ->
    Py.splitlines_from (lower_ascii cur) (lower_ascii s)
    = map lower_ascii (Py.splitlines_from cur s).
Proof.
  induction n as [|n IH]; intros s cur Hn; destruct s as [|c s]; simpl in *;
    try lia; try (now destruct cur).
  rewrite islinebreak_lower_ascii. destruct (Py.islinebreak c).
  - destruct s as [|c' s']; [reflexivity |]. simpl.
    rewrite ord_lower_ascii_cr, ord_lower_ascii_lf.
    destruct ((Py.ord c =? 13) && (Py.ord c' =? 10)); f_equal.
    + apply (IH s' ""). simpl in Hn. lia.
    + apply (IH (String c' s') ""). lia.
  - rewrite <- IH by lia. now rewrite lower_ascii_app.
Qed.

Lemma splitlines_lower_ascii (s : string) :
  Py.splitlines (lower_ascii s) = map lower_ascii (Py.splitlines s).
Proof. apply (splitlines_from_lower_ascii_upto (String.length s) s ""). lia. Qed.

Lemma lit_match_lower_ascii (a c : ascii) :
  Re.lit_match a (lower_ascii_char c) = Re.lit_match a c.
Proof. unfold Re.lit_match. now rewrite lower_of_lower_ascii. Qed.

Lemma star_lower_ascii {A : Type} (k : Re.cls) (f : A -> A)
  (rest rest' : string -> option A) (s : string) :
  (forall s', rest' (lower_ascii s') = option_map f (rest s')) ->
  Re.star k rest' (lower_ascii s) = option_map f (Re.star k rest s).
Proof.
  intros R. induction s as [|c s IH]; simpl; [apply (R "") |].
  rewrite in_cls_lower_ascii. destruct (Re.in_cls k c); [| apply (R (String c s))].
  rewrite IH. destruct (Re.star k rest s); [reflexivity | apply (R (String c s))].
Qed.

Lemma group_star_lower_ascii {A : Type} (k : Re.cls) (f : A -> A)
  (rest rest' : string -> string -> option A) (s : string) :
  (forall got s',
     rest' (lower_ascii got) (lower_ascii s') = option_map f (rest got s')) ->
  forall got,
    Re.group_star k rest' (lower_ascii got) (lower_ascii s)
    = option_map f (Re.group_star k rest got s).
Proof.
  intros R. induction s as [|c s IH]; intros got; simpl; [apply (R got "") |].
  rewrite in_cls_lower_ascii.
  destruct (Re.in_cls k c); [| apply (R got (String c s))].
  change (String (lower_ascii_char c) "") with (lower_ascii (String c "")).
  rewrite <- lower_ascii_app, IH.
  destruct (Re.group_star k rest _ s); [reflexivity | apply (R got (String c s))].
Qed.

Lemma match_here_lower_ascii (p : Re.pattern) :
  forall s, Re.match_here p (lower_ascii s)
            = option_map (map lower_ascii) (Re.match_here p s).
Proof.
  induction p as [|[a|k|k|k] p IH]; intros s; cbn [Re.match_here].
  - reflexivity.
  - destruct s as [|c s]; simpl; [reflexivity |].
    rewrite lit_match_lower_ascii.
    destruct (Re.lit_match a c); [apply IH | reflexivity].
  - now apply star_lower_ascii.
  - change EmptyString with (lower_ascii EmptyString) at 1.
    apply group_star_lower_ascii. intros got s'. rewrite IH.
    now destruct (Re.match_here p s').
  - destruct s as [|c s]; simpl; [reflexivity |].
    rewrite in_cls_lower_ascii. destruct (Re.in_cls k c); [| reflexivity].
    rewrite IH. now destruct (Re.match_here p s).
Qed.

Lemma search_lower_ascii (p : Re.pattern) (s : string) :
  Re.search p (lower_ascii s) = option_map (map lower_ascii) (Re.search p s).
Proof.
  induction s as [|c s IH].
  - pose proof (match_here_lower_ascii p "") as H. simpl in *.
    destruct (Re.match_here p "") as [m|]; simpl in *; [exact H | reflexivity].
  - cbn [Re.search lower_ascii].
    change (String (lower_ascii_char c) (lower_ascii s))
      with (lower_ascii (String c s)).
    rewrite match_here_lower_ascii.
    destruct (Re.match_here p (String c s)); [reflexivity |].
    exact IH.
Qed.

Lemma int_from_lower_ascii (s : string) :
  forall acc, Py.int_from acc (lower_ascii s) = Py.int_from acc s.
Proof.
  induction s as [|c s IH]; intros acc; simpl; [reflexivity |].
  rewrite digit_value_lower_ascii.
  destruct (Py.digit_value c); [apply IH | reflexivity].
Qed.

Lemma int_lower_ascii (s : string) : Py.int (lower_ascii s) = Py.int s.
Proof.
  destruct s as [|c s]; [reflexivity |].
  unfold Py.int. cbn [lower_ascii]. apply (int_from_lower_ascii (String c s)).
Qed.

Lemma captured_lower_ascii (m : Re.match_object) :
  captured (map lower_ascii m)
  = option_map (fun tn => (lower_ascii (fst tn), snd tn)) (captured m).
Proof.
  destruct m as [|g1 [|g2 m]]; try reflexivity.
  unfold captured, Re.group. simpl.
  rewrite int_lower_ascii, strip_lower_ascii. now destruct (Py.int g2).
Qed.

Lemma loop_body_lower_ascii (v : vars) (line : string) :
  loop_body (lower_ascii_vars v) (lower_ascii line)
  = option_map lower_ascii_vars (loop_body v line).
Proof.
  unfold loop_body. cbv zeta.
  rewrite strip_lower_ascii, lower_of_lower_ascii_string, !search_lower_ascii.
  destruct (Py.startswith _ "summary:"); [reflexivity |].
  destruct (Py.contains "- behavior:" _).
  { destruct (Re.search behavior_re line) as [m|]; [| reflexivity]. simpl.
    rewrite captured_lower_ascii. now destruct (captured m) as [[t n]|]. }
  destruct (Py.contains "- conversation quality:" _).
  { destruct (Re.search conv_re line) as [m|]; [| reflexivity]. simpl.
    rewrite captured_lower_ascii. now destruct (captured m) as [[t n]|]. }
  destruct (Py.contains "- know-how of the issue:" _).
  { destruct (Re.search know_re line) as [m|]; [| reflexivity]. simpl.
    rewrite captured_lower_ascii. now destruct (captured m) as [[t n]|]. }
  simpl. destruct (current v); try reflexivity.
  unfold lower_ascii_vars, set_summary. simpl. now rewrite !lower_ascii_app.
Qed.

Lemma loop_lower_ascii (lines : list string) :
  forall v, loop (lower_ascii_vars v) (map lower_ascii lines)
            = option_map lower_ascii_vars (loop v lines).
Proof.
  induction lines as [|l lines IH]; intros v; simpl; [reflexivity |].
  rewrite loop_body_lower_ascii. destruct (loop_body v l); [apply IH | reflexivity].
Qed.

End Lowercase.

(** X9.  Parsing ignores the capitalisation of the letters A to Z: writing
    them as a to z in a completion text writes them so in the summary and
    the three texts returned and leaves the three scores as they are, so no
    marker, label or annotation is missed for being written in capitals. *)
Theorem parsing_ignores_ascii_case (out : string) :
  exists r, extract_info out = Some r
    /\ extract_info (lower_ascii out) = Some (lower_ascii_parsed r).
Proof.
  unfold extract_info. rewrite splitlines_lower_ascii.
  change initial with (lower_ascii_vars initial) at 2. rewrite loop_lower_ascii.
  destruct (loop_returns (Py.splitlines out) initial) as (v & ->).
  exists (result v). split; [reflexivity |]. simpl.
  unfold result, lower_ascii_vars. simpl. now rewrite strip_lower_ascii.
Qed.

Section LineEndings.

Lemma splitlines_from_crlf (s : string) :
  forall cur, no_cr s = true ->
    Py.splitlines_from cur (crlf s) = Py.splitlines_from cur s.
Proof.
  induction s as [|c s IH]; intros cur N; [reflexivity |].
  simpl in N. apply andb_true_iff in N as [C N]. apply negb_true_iff in C.
  cbn [crlf]. destruct (Py.ord c =? 10) eqn:L.
  - apply Nat.eqb_eq in L.
    assert (c = "010"%char) as -> by
      (rewrite <- (ascii_nat_embedding c); unfold Py.ord in L; now rewrite L).
    cbn. rewrite IH by exact N. now destruct s.
  - cbn [Py.splitlines_from]. rewrite C. cbn [andb].
    destruct (Py.islinebreak c).
    + f_equal. rewrite IH by exact N.
      destruct s as [|c' s]; simpl; [reflexivity |].
      now destruct (Py.ord c' =? 10).
    + now apply IH.
Qed.

End LineEndings.

(** X10.  Line endings do not matter: a completion text without CR and the
    same text with every LF written as CR LF are parsed into the same
    tuple. *)
Theorem crlf_line_endings_parse_alike (out : string) :
  no_cr out = true -> extract_info (crlf out) = extract_info out.
Proof.
  intros N. unfold extract_info, Py.splitlines. now rewrite splitlines_from_crlf.
Qed.

Lemma crlf_witness : extract_info (crlf scenario2) = extract_info scenario2.
Proof. apply (crlf_line_endings_parse_alike scenario2). reflexivity. Defined.

(** X11.  The detector ignores case and context: it gives the same answer on
    a conversation and on its lowercase form, and a conversation it flags
    stays flagged with any text put before and after it. *)
Theorem detector_ignores_case_and_context (convo : string) :
  detect_sensitive_info (Py.lower convo) = detect_sensitive_info convo
  /\ (detect_sensitive_info convo = true ->
      forall pre post, detect_sensitive_info (pre ++ convo ++ post) = true).
Proof.
  split.
  - unfold detect_sensitive_info. cbv zeta. now rewrite lower_idem.
  - unfold detect_sensitive_info. cbv zeta. intros H pre post.
    apply existsb_exists in H as (f & F & C). apply existsb_exists.
    exists f. split; [exact F |].
    apply contains_spec in C. apply contains_spec.
    rewrite !lower_app. now apply infix_app_l, infix_app_r.
Qed.

(** ** The two surfaces, outcome by outcome *)

Section Outcomes.

Variable sv : services.

Lemma blank_false_strip (s : string) :
  blank s = false <-> exists x rest, Py.strip s = String x rest.
Proof.
  split.
  - intros B. destruct (Py.strip s) as [|x rest] eqn:E; [| eauto].
    apply strip_empty_iff_blank in E. congruence.
  - intros (x & rest & E). destruct (blank s) eqn:B; [| reflexivity].
    apply strip_blank in B. congruence.
Qed.

Lemma log_to_csv_row (convo : string) (p : parsed) (flagged : bool) (w : world) :
  log_to_csv sv convo p flagged w =
    let r := row_of convo p flagged (clock sv (ticks w)) in
    match write_error sv (csv w) r with
    | Some e => (inl e, mkWorld (csv w) (sent w) (S (ticks w)))
    | None => (inr tt, mkWorld (csv w ++ [r])%list (sent w) (S (ticks w)))
    end.
Proof. now destruct p as [[[[[[sm b] c] k] nb] nc] nk]. Qed.

Lemma evaluate_ok_iff (convo : string) (w w' : world) (r : Api.evaluation) :
  Api.evaluate sv (Some convo) w = (Api.Ok r, w') <->
  exists n out p,
    tokenizer sv convo = inr n
    /\ went_through sv convo w out p 1
    /\ r = response_of n (detect_sensitive_info convo) (clock sv (ticks w)) p
    /\ w' = after w (row_of convo p (detect_sensitive_info convo)
                       (clock sv (1 + ticks w))) convo 2.
Proof.
  unfold Api.evaluate, estimate_tokens, went_through, after.
  destruct (Py.strip convo) as [|x rest] eqn:S.
  { apply strip_empty_iff_blank in S.
    split; [discriminate | intros (n & out & p & _ & (B & _) & _)]; congruence. }
  assert (blank convo = false) as B by (apply blank_false_strip; eauto).
  destruct (tokenizer sv convo) as [e|n].
  { split; [discriminate | intros (n & out & p & E & _)]; discriminate. }
  unfold utcnow, evaluate_convo. cbn [csv sent ticks].
  destruct (completions sv (sent w) convo) as [e|out].
  { split; [discriminate | intros (n' & out & p & _ & (_ & E & _) & _)]; discriminate. }
  destruct (extract_info_returns out) as (p & Ep). rewrite Ep.
  rewrite log_to_csv_row. cbv zeta. cbn [csv sent ticks].
  destruct p as [[[[[[sm b] c] k] nb] nc] nk].
  split.
  - destruct (write_error sv _ _) eqn:W; [discriminate |]. cbv beta iota.
    intros [= <- <-]. exists n, out, (sm, b, c, k, nb, nc, nk).
    repeat split; eauto.
  - intros (n' & out' & p' & [= <-] & (_ & [= <-] & Ex & W) & -> & ->).
    rewrite Ep in Ex. injection Ex as <-.
    cbn [Nat.add] in W. rewrite W. reflexivity.
Qed.

Lemma evaluate_error (req : option string) (w w' : world) (st : nat) (e : string) :
  Api.evaluate sv req w = (Api.Error st e, w') ->
  csv w' = csv w
  /\ ((st = 400 /\ e = "Conversation is required" /\ w' = w) \/ st = 500).
Proof.
  unfold Api.evaluate, estimate_tokens.
  destruct (Py.strip _) as [|x rest].
  { intros [= <- <- <-]. auto. }
  destruct (tokenizer sv _) as [e1|n].
  { intros [= <- <- <-]. auto. }
  unfold utcnow, evaluate_convo. cbn [csv sent ticks].
  destruct (completions sv _ _) as [e1|out].
  { intros [= <- <- <-]. auto. }
  destruct (extract_info out) as [p|]; [| intros [= <- <- <-]; auto].
  rewrite log_to_csv_row. cbv zeta. cbn [csv sent ticks].
  destruct p as [[[[[[sm b] c] k] nb] nc] nk].
  destruct (write_error sv _ _); [| discriminate]. cbv beta iota.
  intros [= <- <- <-]. auto.
Qed.

Lemma evaluate_sent (req : option string) (w w' : world) (r : Api.response) :
  Api.evaluate sv req w = (r, w') ->
  sent w' = sent w
  \/ exists convo n, req = Some convo /\ blank convo = false
       /\ tokenizer sv convo = inr n
       /\ sent w' = (sent w ++ [convo])%list.
Proof.
  unfold Api.evaluate, estimate_tokens.
  destruct (Py.strip _) as [|x rest] eqn:S.
  { intros [= <- <-]. auto. }
  destruct req as [convo|]; [| discriminate].
  destruct (tokenizer sv convo) as [e1|n] eqn:T.
  { intros [= <- <-]. auto. }
  assert (blank convo = false) as B by (apply blank_false_strip; eauto).
  unfold utcnow, evaluate_convo. cbn [csv sent ticks].
  destruct (completions sv _ _) as [e1|out].
  { intros [= <- <-]. right. exists convo, n. auto. }
  destruct (extract_info out) as [p|]; [| intros [= <- <-]; right; exists convo, n; auto].
  rewrite log_to_csv_row. cbv zeta. cbn [csv sent ticks].
  destruct p as [[[[[[sm b] c] k] nb] nc] nk].
  destruct (write_error sv _ _); cbv beta iota; intros [= <- <-]; right;
    exists convo, n; auto.
Qed.

Lemma submit_shown_iff (submitted : bool) (convo : string) (w w' : world) (p : parsed) :
  App.submit sv submitted convo w = (App.Shown p, w') <->
  exists out,
    submitted = true
    /\ went_through sv convo w out p 0
    /\ w' = after w (row_of convo p (detect_sensitive_info convo)
                       (clock sv (ticks w))) convo 1.
Proof.
  unfold App.submit, went_through, after.
  destruct submitted.
  2: { split; [discriminate | intros (out & E & _)]; discriminate. }
  destruct (Py.strip convo) as [|x rest] eqn:S.
  { apply strip_empty_iff_blank in S.
    split; [discriminate | intros (out & _ & (B & _) & _)]; congruence. }
  assert (blank convo = false) as B by (apply blank_false_strip; eauto).
  unfold evaluate_convo. cbn [csv sent ticks].
  destruct (completions sv (sent w) convo) as [e|out].
  { split; [discriminate | intros (out & _ & (_ & E & _) & _)]; discriminate. }
  destruct (extract_info_returns out) as (q & Eq). rewrite Eq.
  unfold cache_result. rewrite log_to_csv_row. cbv zeta. cbn [csv sent ticks].
  split.
  - destruct (write_error sv _ _) eqn:W; [discriminate |]. cbv beta iota.
    intros [= <- <-]. exists out. repeat split; eauto.
  - intros (out' & _ & (_ & [= <-] & Ex & W) & ->).
    rewrite Eq in Ex. injection Ex as <-.
    cbn [Nat.add] in W. rewrite W. reflexivity.
Qed.

Lemma submit_not_shown (submitted : bool) (convo : string) (w w' : world)
  (o : App.outcome) :
  App.submit sv submitted convo w = (o, w') ->
  (forall p, o <> App.Shown p) -> csv w' = csv w.
Proof.
  unfold App.submit.
  destruct submitted; [| now intros [= <- <-]].
  destruct (Py.strip convo) as [|x rest]; [now intros [= <- <-] |].
  unfold evaluate_convo. cbn [csv sent ticks].
  destruct (completions sv (sent w) convo) as [e|out]; [now intros [= <- <-] |].
  destruct (extract_info out) as [q|]; [| now intros [= <- <-]].
  unfold cache_result. rewrite log_to_csv_row. cbv zeta. cbn [csv sent ticks].
  destruct (write_error sv _ _); cbv beta iota; intros [= <- <-] N; [reflexivity |].
  now destruct (N q).
Qed.

End Outcomes.

Section Rows.

Lemma ist_split (t : instant) :
  t = (ist_date t * day + ist_time t - kolkata_offset t)%Z
  /\ (0 <= ist_time t < day)%Z.
Proof.
  unfold ist_date, ist_time.
  assert (0 < day)%Z as D by reflexivity.
  pose proof (Z.div_mod (t + kolkata_offset t) day ltac:(lia)) as E.
  pose proof (Z.mod_pos_bound (t + kolkata_offset t) day D) as B.
  split; [lia | exact B].
Qed.

(** The offsets in 1900, in 1943 and in 2023, and the time of day written
    for 1 January 1943, 00:00 UTC. *)
Example kolkata_offsets :
  (kolkata_offset (-2208988800000000) = 19270000000
   /\ kolkata_offset (-852076800000000) = 23400000000
   /\ kolkata_offset 1700000000000000 = 19800000000
   /\ ist_time (-852076800000000) = 23400000000)%Z.
Proof. repeat split; reflexivity. Qed.

Lemma extract_info_scores (out : string) (p : parsed) (c : category) :
  extract_info out = Some p -> (0 <= score_of c p <= 9)%Z.
Proof.
  intros E. destruct (extract_info_fields c out) as (r & E' & F).
  rewrite E in E'. injection E' as <-.
  change (score_of c p) with (snd (text_of c p, score_of c p)). rewrite F.
  apply fold_update_range. simpl. lia.
Qed.

Lemma row_of_sound (convo out : string) (p : parsed) (t : instant) :
  blank convo = false -> extract_info out = Some p ->
  sound_row (row_of convo p (detect_sensitive_info convo) t).
Proof.
  intros B E. pose proof (fun c => extract_info_scores out p c E) as R.
  destruct p as [[[[[[sm b] c] k] nb] nc] nk]. unfold sound_row.
  cbn [row_of Conversation Agent_Reported Timestamp_UTC Date_IST Time_IST].
  repeat split; try apply ist_split; auto; apply R.
Qed.

Lemma row_of_fields (convo : string) (p : parsed) (flagged : bool) (t : instant) :
  fields_of_row (row_of convo p flagged t) = p
  /\ Conversation (row_of convo p flagged t) = convo
  /\ Agent_Reported (row_of convo p flagged t) = flagged
  /\ Timestamp_UTC (row_of convo p flagged t) = t.
Proof. now destruct p as [[[[[[sm b] c] k] nb] nc] nk]. Qed.

Lemma response_of_fields (n : nat) (flagged : bool) (t : instant) (p : parsed) :
  fields_of_response (response_of n flagged t p) = p
  /\ Api.tokens_estimated (response_of n flagged t p) = n
  /\ Api.agent_reported (response_of n flagged t p) = flagged
  /\ Api.timestamp_utc (response_of n flagged t p) = t.
Proof. now destruct p as [[[[[[sm b] c] k] nb] nc] nk]. Qed.

End Rows.

(** X12.  No completion text makes a request fail: for a conversation that
    is not blank, when the tokenizer and the completion service raise
    nothing and the log can be written, [evaluate] answers 200 with the
    fields parsed from the completion and the form shows them, whatever
    the completion text is. *)
Theorem every_completion_is_accepted (sv : services) (convo out : string)
  (w : world) (n : nat) :
  blank convo = false ->
  tokenizer sv convo = inr n ->
  completions sv (sent w) convo = inr out ->
  (forall rows r, write_error sv rows r = None) ->
  exists p r w1 w2,
    extract_info out = Some p
    /\ Api.evaluate sv (Some convo) w = (Api.Ok r, w1)
    /\ fields_of_response r = p
    /\ App.submit sv true convo w = (App.Shown p, w2).
Proof.
  intros B T C W. destruct (extract_info_returns out) as (p & E).
  exists p. eexists. eexists. eexists. split; [exact E |]. split; [| split].
  - apply evaluate_ok_iff. exists n, out, p.
    split; [exact T |]. split; [| split; reflexivity].
    repeat split; auto.
  - apply response_of_fields.
  - apply submit_shown_iff. exists out.
    split; [reflexivity |]. split; [| reflexivity]. repeat split; auto.
Qed.

Lemma every_completion_witness :
  exists p r w1 w2,
    extract_info ")(Score: /5) - behavior:" = Some p
    /\ Api.evaluate (stub ")(Score: /5) - behavior:") (Some otp_chat) fresh
       = (Api.Ok r, w1)
    /\ fields_of_response r = p
    /\ App.submit (stub ")(Score: /5) - behavior:") true otp_chat fresh
       = (App.Shown p, w2).
Proof.
  apply (every_completion_is_accepted (stub ")(Score: /5) - behavior:")
           otp_chat ")(Score: /5) - behavior:" fresh 41); reflexivity.
Defined.


(** X13.  The row logged for a request answered 200 holds the conversation
    and what the body holds: the same summary, texts and scores and the
    same flag.  Its timestamp is not the one of the body but the next
    reading of the clock. *)
Theorem logged_row_matches_response (sv : services) (convo : string)
  (w w' : world) (r : Api.evaluation) :
  Api.evaluate sv (Some convo) w = (Api.Ok r, w') ->
  exists row, csv w' = (csv w ++ [row])%list
    /\ Conversation row = convo
    /\ fields_of_row row = fields_of_response r
    /\ Agent_Reported row = Api.agent_reported r
    /\ Api.timestamp_utc r = clock sv (ticks w)
    /\ Timestamp_UTC row = clock sv (1 + ticks w).
Proof.
  intros H. apply evaluate_ok_iff in H as (n & out & p & _ & _ & -> & ->).
  eexists. split; [reflexivity |].
  pose proof (row_of_fields convo p (detect_sensitive_info convo)
                (clock sv (1 + ticks w))) as (F & C & A & T).
  pose proof (response_of_fields n (detect_sensitive_info convo)
                (clock sv (ticks w)) p) as (F' & _ & A' & T').
  repeat split; congruence.
Qed.

Lemma logged_row_witness :
  exists row, csv praise_world = (csv fresh ++ [row])%list
    /\ Conversation row = otp_chat
    /\ fields_of_row row = fields_of_response praise_reply
    /\ Agent_Reported row = Api.agent_reported praise_reply
    /\ Api.timestamp_utc praise_reply = clock (stub praise) (ticks fresh)
    /\ Timestamp_UTC row = clock (stub praise) (1 + ticks fresh).
Proof.
  apply (logged_row_matches_response (stub praise) otp_chat fresh praise_world
           praise_reply).
  vm_compute. reflexivity.
Defined.

(** X14.  A request that fails writes nothing: when [evaluate] answers an
    error the log is as before, the status is 400 with the message
    "Conversation is required" and an unchanged world, or 500; and when the
    form does not show an evaluation the log is as before. *)
Theorem failures_write_nothing :
  (forall sv req w w' st e,
     Api.evaluate sv req w = (Api.Error st e, w') ->
     csv w' = csv w
     /\ ((st = 400 /\ e = "Conversation is required" /\ w' = w) \/ st = 500))
  /\ (forall sv submitted convo w w' o,
        App.submit sv submitted convo w = (o, w') ->
        (forall p, o <> App.Shown p) -> csv w' = csv w).
Proof.
  split.
  - intros sv req w w' st e. apply evaluate_error.
  - intros sv submitted convo w w' o. apply submit_not_shown.
Qed.

Lemma failures_witness :
  Api.evaluate (down "timeout") (Some otp_chat) fresh
  = (Api.Error 500 "timeout", mkWorld [] [otp_chat] 1)
  /\ csv (mkWorld [] [otp_chat] 1) = csv fresh.
Proof.
  assert (Api.evaluate (down "timeout") (Some otp_chat) fresh
          = (Api.Error 500 "timeout", mkWorld [] [otp_chat] 1)) as H
    by (vm_compute; reflexivity).
  split; [exact H |].
  exact (proj1 (proj1 failures_write_nothing _ _ _ _ _ _ H)).
Defined.

(** X15.  One request asks the completion service at most once, and only
    for its own conversation: after [evaluate] the conversations sent are
    the ones sent before, or those followed by the request's conversation,
    and the latter only when it is not blank and the tokenizer raised
    nothing. *)
Theorem completion_is_requested_at_most_once (sv : services)
  (req : option string) (w w' : world) (r : Api.response) :
  Api.evaluate sv req w = (r, w') ->
  sent w' = sent w
  \/ exists convo n, req = Some convo /\ blank convo = false
       /\ tokenizer sv convo = inr n
       /\ sent w' = (sent w ++ [convo])%list.
Proof. apply evaluate_sent. Qed.

Lemma completion_requested_witness :
  sent praise_world = sent fresh
  \/ exists convo n, Some otp_chat = Some convo /\ blank convo = false
       /\ tokenizer (stub praise) convo = inr n
       /\ sent praise_world = (sent fresh ++ [convo])%list.
Proof.
  apply (completion_is_requested_at_most_once (stub praise) (Some otp_chat)
           fresh praise_world (Api.Ok praise_reply)).
  vm_compute. reflexivity.
Defined.

(** X16.  The log only grows, and by sound rows: after a request on either
    surface the rows are the earlier rows followed by at most one new row,
    and when every earlier row has a conversation that is not blank, the
    detector's answer on it as flag, scores from 0 to 9, and a date and
    time of day (IST) that add up to its timestamp, so has the new one. *)
Theorem log_grows_by_sound_rows :
  (forall sv req w,
     let w' := snd (Api.evaluate sv req w) in
     (exists new, csv w' = (csv w ++ new)%list /\ length new <= 1)
     /\ (Forall sound_row (csv w) -> Forall sound_row (csv w')))
  /\ (forall sv submitted convo w,
        let w' := snd (App.submit sv submitted convo w) in
        (exists new, csv w' = (csv w ++ new)%list /\ length new <= 1)
        /\ (Forall sound_row (csv w) -> Forall sound_row (csv w'))).
Proof.
  assert (forall w w' : world, csv w' = csv w ->
            (exists new, csv w' = (csv w ++ new)%list /\ length new <= 1)
            /\ (Forall sound_row (csv w) -> Forall sound_row (csv w'))) as Same.
  { intros w w' E. split; [exists []; rewrite app_nil_r; auto |]. now rewrite E. }
  assert (forall sv w convo out p reads t,
            went_through sv convo w out p reads ->
            (exists new, csv (after w (row_of convo p (detect_sensitive_info convo) t)
                                convo (S reads))
                         = (csv w ++ new)%list /\ length new <= 1)
            /\ (Forall sound_row (csv w) ->
                Forall sound_row
                  (csv (after w (row_of convo p (detect_sensitive_info convo) t)
                          convo (S reads))))) as Grown.
  { intros sv w convo out p reads t (B & _ & E & _). simpl. split.
    - eexists. split; [reflexivity | simpl; lia].
    - intros F. apply Forall_app. split; [exact F |].
      constructor; [| constructor]. now apply (row_of_sound convo out). }
  split.
  - intros sv req w. cbv zeta.
    destruct (Api.evaluate sv req w) as [[r|st e] w'] eqn:E; simpl.
    + destruct req as [convo|].
      * apply evaluate_ok_iff in E as (n & out & p & _ & G & _ & ->).
        apply (Grown sv w convo out p 1 _ G).
      * apply Same. unfold Api.evaluate in E. simpl in E. discriminate.
    + apply Same. now apply evaluate_error in E as (E & _).
  - intros sv submitted convo w. cbv zeta.
    destruct (App.submit sv submitted convo w) as [o w'] eqn:E; simpl.
    destruct o as [|p|e].
    + apply Same. eapply submit_not_shown; [exact E | discriminate].
    + apply submit_shown_iff in E as (out & _ & G & ->).
      apply (Grown sv w convo out p 0 _ G).
    + apply Same. eapply submit_not_shown; [exact E | discriminate].
Qed.

Lemma log_grows_witness :
  Forall sound_row (csv praise_world).
Proof.
  assert (snd (Api.evaluate (stub praise) (Some otp_chat) fresh) = praise_world) as E
    by (vm_compute; reflexivity).
  rewrite <- E.
  apply (proj1 log_grows_by_sound_rows (stub praise) (Some otp_chat) fresh).
  constructor.
Defined.

(** X17.  The two surfaces log the same record: when the HTTP handler
    answers 200 and the form shows an evaluation for the same conversation
    and the same completion text, the rows they add agree on the
    conversation, the summary, the texts, the scores and the flag. *)
Theorem surfaces_log_the_same_record (sv1 sv2 : services) (convo : string)
  (w1 w1' w2 w2' : world) (r : Api.evaluation) (p : parsed) :
  Api.evaluate sv1 (Some convo) w1 = (Api.Ok r, w1') ->
  App.submit sv2 true convo w2 = (App.Shown p, w2') ->
  completions sv1 (sent w1) convo = completions sv2 (sent w2) convo ->
  exists row1 row2,
    csv w1' = (csv w1 ++ [row1])%list /\ csv w2' = (csv w2 ++ [row2])%list
    /\ Conversation row1 = Conversation row2
    /\ fields_of_row row1 = fields_of_row row2
    /\ Agent_Reported row1 = Agent_Reported row2
    /\ fields_of_response r = p.
Proof.
  intros H1 H2 C.
  apply evaluate_ok_iff in H1 as (n & out1 & p1 & _ & (_ & O1 & E1 & _) & -> & ->).
  apply submit_shown_iff in H2 as (out2 & _ & (_ & O2 & E2 & _) & ->).
  rewrite C, O2 in O1. injection O1 as <-. rewrite E2 in E1. injection E1 as <-.
  eexists. eexists. split; [reflexivity |]. split; [reflexivity |].
  pose proof (row_of_fields convo p (detect_sensitive_info convo)
                (clock sv1 (1 + ticks w1))) as (F1 & C1 & A1 & _).
  pose proof (row_of_fields convo p (detect_sensitive_info convo)
                (clock sv2 (ticks w2))) as (F2 & C2 & A2 & _).
  pose proof (response_of_fields n (detect_sensitive_info convo)
                (clock sv1 (ticks w1)) p) as (F' & _).
  repeat split; congruence.
Qed.

Lemma surfaces_witness :
  exists row1 row2,
    csv praise_world = (csv fresh ++ [row1])%list
    /\ csv (snd (App.submit (stub praise) true otp_chat fresh))
       = (csv fresh ++ [row2])%list
    /\ Conversation row1 = Conversation row2
    /\ fields_of_row row1 = fields_of_row row2
    /\ Agent_Reported row1 = Agent_Reported row2
    /\ fields_of_response praise_reply
       = ("Agent verified the customer.", "Exemplary", "", "", 5%Z, 1%Z, 1%Z).
Proof.
  apply (surfaces_log_the_same_record (stub praise) (stub praise) otp_chat
           fresh praise_world fresh
           (snd (App.submit (stub praise) true otp_chat fresh)) praise_reply).
  - vm_compute. reflexivity.
  - vm_compute. reflexivity.
  - reflexivity.
Defined.

(** X18.  A category whose bullet lines hold no "/5)" keeps the defaults:
    when no line that takes the branch of a category contains "/5)",
    [extract_info] returns the empty text and the score 1 for it. *)
Theorem bullet_without_slash_five_is_dropped (out : string) (c : category) :
  (forall l, In l (Py.splitlines out) -> classify l = Bullet c ->
             Py.contains "/5)" l = false) ->
  exists r, extract_info out = Some r
    /\ text_of c r = "" /\ score_of c r = 1%Z.
Proof.
  intros H. destruct (extract_info_fields c out) as (r & E & F).
  exists r. split; [exact E |].
  rewrite fold_update_unmatched in F
    by (intros l I K; apply capture_needs_slash_five; auto).
  now injection F.
Qed.

Lemma bullet_without_slash_five_witness :
  exists r,
    extract_info ("- Know-How of the Issue: knows the product (Score: 5 of 5)"
                  ++ LF ++ "- Behavior: kind (Score: 4/5)") = Some r
    /\ text_of KnowHow r = "" /\ score_of KnowHow r = 1%Z.
Proof.
  apply (bullet_without_slash_five_is_dropped _ KnowHow).
  intros l I K. by_cases_on_lines I K.
Defined.

(** X19.  Without a "summary:" line there is no summary: when no line of
    the completion starts with "summary:" once stripped and lowercased,
    the summary returned is empty, whatever the text holds. *)
Theorem no_summary_line_no_summary (out : string) :
  (forall l, In l (Py.splitlines out) -> classify l <> SummaryLine) ->
  exists r, extract_info out = Some r /\ summary_of r = "".
Proof.
  intros H. unfold extract_info.
  destruct (loop_summary_closed (Py.splitlines out) initial H) as (v & -> & S & _);
    [discriminate |].
  exists (result v). split; [reflexivity |]. simpl. now rewrite S.
Qed.

Lemma no_summary_line_witness :
  exists r,
    extract_info ("The customer could not log in." ++ LF
                  ++ "- Behavior: kind (Score: 4/5)" ++ LF ++ "In summary: fine")
    = Some r
    /\ summary_of r = "".
Proof.
  apply (no_summary_line_no_summary _).
  intros l I K. by_cases_on_lines I K.
Defined.
